(** * mc_unit: unit systems and conversions between them

    A shallow embedding of [mc_unit/common.py] and [mc_unit/units.py].

    Numbers.  Python's floats and ints are modelled by the canonical
    rationals [Qc] (exact arithmetic, Leibniz equality, computable).  A
    decimal literal of the source denotes the rational it is written as.
    Whatever the source computes with [+], [-], [*] is computed here with
    the same operations on [Qc]; the source's [/], which raises
    [ZeroDivisionError] on a zero divisor, is [truediv].  The rationals
    carry the structure of the code: labels, exceptions, containers, and
    the identities that the floats of the source satisfy as well.  What
    depends on rounding or overflow is stated about [Binary64], the same
    ratios and unit systems over the primitive binary64 floats.

    Objects.  Lists, arrays, dictionaries, unit systems and proxies are
    mutable Python objects: they live in a heap and are passed by
    reference.  Tuples, numbers and closures are values.  A function of the
    source that touches objects is a function in the monad [M], which
    threads the heap and carries the exception a call may raise. *)

From Stdlib Require Import ZArith QArith Qabs Qcanon String List Bool Lia.
From Stdlib Require PrimFloat.
Import ListNotations.

Open Scope string_scope.
Open Scope Qc_scope.

(* ================================================================== *)
(** ** Exceptions and results *)

Inductive Exception :=
| ValueError (msg : string)
| ZeroDivisionError
| TypeError
| AttributeError.

Inductive result (A : Type) :=
| Ok (a : A)
| Raise (e : Exception).

Arguments Ok {A} a.
Arguments Raise {A} e.

Definition bind_result {A B} (r : result A) (k : A -> result B) : result B :=
  match r with
  | Ok a => k a
  | Raise e => Raise e
  end.

Notation "'let?' x ':=' r 'in' k" :=
  (bind_result r (fun x => k))
  (at level 10, x name, r at level 100, k at level 200).

(* ================================================================== *)
(** ** Numbers *)

(** The rational a literal of the source is written as. *)
Definition lit (q : Q) : Qc := Q2Qc q.
Arguments lit q%_Q.

Definition is_zero (x : Qc) : bool := (Qnum (this x) =? 0)%Z.

(** [x / y] on plain numbers. *)
Definition truediv (x y : Qc) : result Qc :=
  if is_zero y then Raise ZeroDivisionError else Ok (x / y).

(** [x ** n] on plain numbers, for an [int] exponent [n].  A fractional
    exponent has no exact rational value and is left out of the model,
    and so is the [OverflowError] of a float power too large to
    represent. *)
Definition pow (x : Qc) (n : Z) : result Qc :=
  match n with
  | Z0 => Ok 1
  | Zpos p => Ok (x ^ Pos.to_nat p)
  | Zneg p => if is_zero x then Raise ZeroDivisionError
              else Ok (/ (x ^ Pos.to_nat p))
  end.


(* ================================================================== *)
(** ** common.py *)

(** [@dataclass(frozen=True) class Constant]: a value and a label. *)
Record Constant := Const { value : Qc; unit : string }.

(** What may stand on the other side of a binary operator: another
    [Constant] or a plain number. *)
Inductive Operand :=
| OConstant (other : Constant)
| ONumber (other : Qc).

(** What may stand as the exponent of [**]: a [Constant] or a plain
    ([int]) number. *)
Inductive Exponent :=
| EConstant (exponent : Constant)
| EInt (exponent : Z).

Definition __neg__ (self : Constant) : Constant :=
  Const (- value self) (unit self).



Definition __add__ (self : Constant) (other : Operand) : Constant :=
  match other with
  | OConstant other => Const (value self + value other) (unit self)
  | ONumber other => Const (value self + other) (unit self)
  end.

Definition __radd__ (self : Constant) (other : Operand) : Constant :=
  __add__ self other.

Definition __sub__ (self : Constant) (other : Operand) : Constant :=
  match other with
  | OConstant other => Const (value self - value other) (unit self)
  | ONumber other => Const (value self - other) (unit self)
  end.

Definition __rsub__ (self : Constant) (other : Operand) : Constant :=
  match other with
  | OConstant other => Const (value other - value self) (unit self)
  | ONumber other => Const (other - value self) (unit self)
  end.

Definition __mul__ (self : Constant) (other : Operand) : Constant :=
  match other with
  | OConstant other => Const (value self * value other) (unit self)
  | ONumber other => Const (value self * other) (unit self)
  end.

Definition __rmul__ (self : Constant) (other : Operand) : Constant :=
  __mul__ self other.


Definition __rtruediv__ (self : Constant) (other : Operand)
  : result Constant :=
  match other with
  | OConstant other =>
      let? v := truediv (value other) (value self) in
      Ok (Const v (unit self))
  | ONumber other =>
      let? v := truediv other (value self) in
      Ok (Const v (unit self))
  end.

(** [self.value ** exponent].  The method does not test [exponent]: when
    it is a [Constant] the number [self.value] cannot be raised to it, and
    [Constant] has no reflected power for the interpreter to fall back
    on, so the expression raises [TypeError]. *)
Definition __pow__ (self : Constant) (exponent : Exponent)
  : result Constant :=
  match exponent with
  | EConstant _ => Raise TypeError
  | EInt n =>
      let? v := pow (value self) n in
      Ok (Const v (unit self))
  end.

(** The binary operators of the language. *)
Inductive BinOp := Add | Sub | Mul | TrueDiv | Pow.

(** The reflected method [Constant] defines for an operator, if any. *)
Definition reflected (op : BinOp)
  : option (Constant -> Operand -> result Constant) :=
  match op with
  | Add => Some (fun self other => Ok (__radd__ self other))
  | Sub => Some (fun self other => Ok (__rsub__ self other))
  | Mul => Some (fun self other => Ok (__rmul__ self other))
  | TrueDiv => Some __rtruediv__
  | Pow => None
  end.

(** [x op c] for a plain number [x] and a Constant [c]: the number does
    not know [Constant], so the interpreter calls the reflected method of
    [c], and raises [TypeError] when the class has none. *)
Definition number_op_Constant (op : BinOp) (x : Qc) (c : Constant)
  : result Constant :=
  match reflected op with
  | Some method => method c (ONumber x)
  | None => Raise TypeError
  end.

(** The power helpers [units.py] uses ([POWN], a wrapper of the array
    library's power, is used nowhere). *)
Definition POW2 (x : Qc) : Qc := x * x.

Definition POW3 (x : Qc) : Qc := x * x * x.

Definition POW4 (x : Qc) : Qc := POW2 x * POW2 x.

(* ================================================================== *)
(** ** units.py: the unit system and its conversion ratios *)

(** The attributes every concrete [UnitSystem] sets in its [__init__]:
    five base constants and eight quantity factors. *)
Record UnitSystem := {
  c : Constant;
  G : Constant;
  kb : Constant;
  Msun : Constant;
  MeV : Constant;
  length : Constant;
  time : Constant;
  density : Constant;
  mass : Constant;
  energy : Constant;
  pressure : Constant;
  temperature : Constant;
  chemical_potential : Constant
}.

(** The instance dictionary, in the order [__init__] fills it. *)
Definition __dict__ (self : UnitSystem) : list (string * Constant) :=
  [ ("c", c self); ("G", G self); ("kb", kb self); ("Msun", Msun self);
    ("MeV", MeV self); ("length", length self); ("time", time self);
    ("density", density self); ("mass", mass self);
    ("energy", energy self); ("pressure", pressure self);
    ("temperature", temperature self);
    ("chemical_potential", chemical_potential self) ].

(** Lookup in a dictionary with string keys. *)
Fixpoint lookup {A} (key : string) (d : list (string * A)) : option A :=
  match d with
  | [] => None
  | (k, a) :: d => if String.eqb key k then Some a else lookup key d
  end.

(** [getattr(self, name)]. *)
Definition getattr (self : UnitSystem) (name : string) : result Constant :=
  match lookup name (__dict__ self) with
  | Some a => Ok a
  | None => Raise AttributeError
  end.

(** Conversion ratio methods ([src] is [self]). *)
Definition conv_length (src tar : UnitSystem) : result Qc :=
  truediv (value (length tar)) (value (length src)).

Definition conv_time (src tar : UnitSystem) : result Qc :=
  truediv (value (time tar)) (value (time src)).

Definition conv_velocity (src tar : UnitSystem) : result Qc :=
  let? r := truediv (value (length tar)) (value (length src)) in
  truediv (r * value (time src)) (value (time tar)).

Definition conv_density (src tar : UnitSystem) : result Qc :=
  truediv (value (density tar)) (value (density src)).

Definition conv_mass (src tar : UnitSystem) : result Qc :=
  truediv (value (mass tar)) (value (mass src)).

Definition conv_energy (src tar : UnitSystem) : result Qc :=
  truediv (value (energy tar)) (value (energy src)).

Definition conv_entropy (src tar : UnitSystem) : result Qc :=
  truediv (value (kb tar)) (value (kb src)).

Definition conv_pressure (src tar : UnitSystem) : result Qc :=
  truediv (value (pressure tar)) (value (pressure src)).

Definition conv_temperature (src tar : UnitSystem) : result Qc :=
  truediv (value (temperature tar)) (value (temperature src)).

Definition conv_chemical_potential (src tar : UnitSystem) : result Qc :=
  truediv (value (chemical_potential tar)) (value (chemical_potential src)).

(** The names [__call__] dumps when it is given no target. *)
Definition dump_names : list string :=
  [ "c"; "G"; "kb"; "Msun"; "MeV";
    "length"; "time"; "density"; "mass"; "energy";
    "pressure"; "temperature"; "chemical_potential" ].

(** [{name: getattr(self, name) for name in names}]. *)
Fixpoint dict_comprehension (self : UnitSystem) (names : list string)
  : result (list (string * Constant)) :=
  match names with
  | [] => Ok []
  | name :: names =>
      let? a := getattr self name in
      let? d := dict_comprehension self names in
      Ok ((name, a) :: d)
  end.

(** [quantity_map]: quantity name to conversion method. *)
Definition quantity_map
  : list (string * (UnitSystem -> UnitSystem -> result Qc)) :=
  [ ("length", conv_length);
    ("time", conv_time);
    ("velocity", conv_velocity);
    ("density", conv_density);
    ("mass", conv_mass);
    ("energy", conv_energy);
    ("entropy", conv_entropy);
    ("pressure", conv_pressure);
    ("temperature", conv_temperature);
    ("chemical_potential", conv_chemical_potential) ].

(** The closed set of quantity names: the keys of [quantity_map]. *)
Definition quantities : list string := map fst quantity_map.

(* ================================================================== *)
(** ** Values, objects and the heap *)

Definition loc := nat.

(** Python values the conversion protocol is called with or returns.
    Numbers and tuples of numbers are immutable; everything else is a
    reference to an object.  [VConverter self quantity] is the closure
    [converter] that [ConversionProxy.__getattr__] returns: it captures
    the proxy [self] and the attribute name. *)
Inductive PyVal :=
| VNum (x : Qc)
| VTuple (xs : list Qc)
| VRef (l : loc)
| VConverter (self : PyVal) (quantity : string).

(** Objects on the heap. *)
Inductive Obj :=
| OUnitSystem (attrs : UnitSystem)
| OList (xs : list Qc)
| ONdarray (shape : list nat) (data : list Qc)
| ODict (items : list (string * Constant))
| OProxy (source_unit target_unit : PyVal).

(** The object at address [l] is the [l]-th allocated one. *)
Definition Heap := list Obj.

Definition M (A : Type) : Type := Heap -> result A * Heap.

Definition ret {A} (a : A) : M A := fun h => (Ok a, h).

Definition raise {A} (e : Exception) : M A := fun h => (Raise e, h).

Definition bind {A B} (m : M A) (k : A -> M B) : M B :=
  fun h =>
    match m h with
    | (Ok a, h') => k a h'
    | (Raise e, h') => (Raise e, h')
    end.

Notation "x <- m ;; k" := (bind m (fun x => k))
  (at level 61, m at next level, right associativity).

(** A computation that cannot touch the heap. *)
Definition lift {A} (r : result A) : M A := fun h => (r, h).

(** A new object: it gets the next free address. *)
Definition alloc (o : Obj) : M PyVal :=
  fun h => (Ok (VRef (List.length h)), (h ++ [o])%list).

(** The object a value refers to, if it is a reference. *)
Definition deref (v : PyVal) : M (option Obj) :=
  fun h =>
    (Ok (match v with
         | VRef l => nth_error h l
         | _ => None
         end), h).

(** [isinstance(v, UnitSystem)]. *)
Definition isinstance_UnitSystem (v : PyVal) : M bool :=
  o <- deref v ;;
  ret (match o with
       | Some (OUnitSystem _) => true
       | _ => false
       end).

(** Reading the attributes of [v] as those of a unit system; any other
    object has none of them. *)
Definition attrs_of (v : PyVal) : M UnitSystem :=
  o <- deref v ;;
  match o with
  | Some (OUnitSystem s) => ret s
  | _ => raise AttributeError
  end.

(* ================================================================== *)
(** ** units.py: ConversionProxy construction and the direct call *)

(** [ConversionProxy(source_unit, target_unit)]: [__init__] checks both
    endpoints and stores them on the new object. *)
Definition ConversionProxy (source_unit target_unit : PyVal) : M PyVal :=
  is_us <- isinstance_UnitSystem source_unit ;;
  if negb is_us then raise (ValueError "source_unit must be a UnitSystem")
  else
    is_us <- isinstance_UnitSystem target_unit ;;
    if negb is_us then raise (ValueError "target_unit must be a UnitSystem")
    else alloc (OProxy source_unit target_unit).

(** [v * factor for v in value]. *)
Definition scaled (xs : list Qc) (factor : Qc) : list Qc :=
  map (fun v => v * factor) xs.

(** The last statement of [__call__]: apply [factor] and preserve the
    type of the input.  An array and a list are new objects; anything
    that is neither an array, a list nor a tuple takes the scalar branch,
    where, of the values of the model, only a number can be multiplied by
    [factor].  The model has plain lists and tuples of numbers only: a
    subclass of tuple, which [type(value)(...)] may fail to rebuild, and
    an object that defines its own multiplication, such as a Constant
    passed as the value, are outside it. *)
Definition apply_factor (val : PyVal) (factor : Qc) : M PyVal :=
  o <- deref val ;;
  match o with
  | Some (ONdarray shape data) => alloc (ONdarray shape (scaled data factor))
  | Some (OList xs) => alloc (OList (scaled xs factor))
  | _ =>
      match val with
      | VTuple xs => ret (VTuple (scaled xs factor))
      | VNum x => ret (VNum (x * factor))
      | _ => raise TypeError
      end
  end.

(** [UnitSystem.__call__(self, target_system=None, quantity=None,
    value=None)].  An argument that is [None] in Python is [None] here. *)
Definition __call__ (self : PyVal) (target_system : option PyVal)
    (quantity : option string) (val : option PyVal) : M PyVal :=
  match target_system with
  | None =>
      src <- attrs_of self ;;
      d <- lift (dict_comprehension src dump_names) ;;
      alloc (ODict d)
  | Some target_system =>
      match quantity with
      | None => ConversionProxy self target_system
      | Some quantity =>
          src <- attrs_of self ;;
          match lookup quantity quantity_map with
          | None =>
              raise (ValueError
                       (String.append "Unknown quantity '"
                          (String.append quantity "'")))
          | Some conv =>
              match val with
              | None => raise (ValueError "Must provide a value to convert")
              | Some val =>
                  tar <- attrs_of target_system ;;
                  factor <- lift (conv src tar) ;;
                  apply_factor val factor
              end
          end
      end
  end.

(* ================================================================== *)
(** ** units.py: attribute-style conversion *)

(** [ConversionProxy.__getattr__(self, quantity)]: a fresh closure. *)
Definition __getattr__ (self : PyVal) (quantity : string) : PyVal :=
  VConverter self quantity.

(** What ordinary attribute lookup finds on the class of a proxy and on
    [object], the base of every class: the docstring [__doc__], the
    methods [__init__] and [__getattr__], [__class__], [__dict__] and the
    like; [None] for a name that neither defines.  Which names these are
    and what they hold is the interpreter's business, not the
    repository's, so the table is a parameter of everything that reads
    an attribute. *)
Definition ClassAttributes : Type := string -> option PyVal.

Section AttributeAccess.

Variable class_attribute : ClassAttributes.

(** [proxy.name] as the interpreter evaluates it on a [ConversionProxy]:
    the attributes [__init__] stored on the instance are found first,
    then what the class and [object] define, and [__getattr__] is called
    only for a name the ordinary lookup does not find.  (The class
    defines nothing under the two names that [__init__] stores, so for
    them the order between the instance and the class is immaterial.)
    Only proxies have attributes read this way here. *)
Definition getattribute (obj : PyVal) (name : string) : M PyVal :=
  o <- deref obj ;;
  match o with
  | Some (OProxy source_unit target_unit) =>
      if String.eqb name "source_unit" then ret source_unit
      else if String.eqb name "target_unit" then ret target_unit
      else
        match class_attribute name with
        | Some found => ret found
        | None => ret (__getattr__ obj name)
        end
  | _ => raise AttributeError
  end.

(** The body of the closure:
    [self.source_unit(self.target_unit, quantity, value)]. *)
Definition converter (self : PyVal) (quantity : string)
    (val : option PyVal) : M PyVal :=
  source_unit <- getattribute self "source_unit" ;;
  target_unit <- getattribute self "target_unit" ;;
  is_us <- isinstance_UnitSystem source_unit ;;
  if is_us then __call__ source_unit (Some target_unit) (Some quantity) val
  else raise TypeError.

(** [f(arg)]: calling a value with one positional argument.  A closure
    runs its body, a unit system its [__call__] with [arg] as target; no
    other value of the model is callable. *)
Definition call1 (f : PyVal) (arg : option PyVal) : M PyVal :=
  match f with
  | VConverter self quantity => converter self quantity arg
  | _ =>
      is_us <- isinstance_UnitSystem f ;;
      if is_us then __call__ f arg None None else raise TypeError
  end.

End AttributeAccess.

(* ================================================================== *)
(** ** units.py: the concrete unit systems

    Each [__init__] is straight-line code over literals and the constants
    of a locally built CGS instance.  Its divisions are written with the
    field division of [Qc]; every divisor is one of [init_divisors] below,
    none of which is zero ([init_divisors_nonzero]), so no division of an
    [__init__] can raise. *)

Definition CGS : UnitSystem := {|
  c := Const (lit 2.99792458e10) "cm s^-1";
  G := Const (lit 6.67408e-8) "cm^3 g^-1 s^-2";
  kb := Const (lit 1.38064852e-16) "erg K^-1";
  Msun := Const (lit 1.98848e33) "g";
  MeV := Const (lit 1.6021766208e-6) "erg";
  length := Const (lit 1.0) "cm";
  time := Const (lit 1.0) "s";
  density := Const (lit 1.0) "g cm^-3";
  mass := Const (lit 1.0) "g";
  energy := Const (lit 1.0) "erg";
  pressure := Const (lit 1.0) "erg cm^-3";
  temperature := Const (lit 1.0) "K";
  chemical_potential := Const (lit 1.0) "erg"
|}.

Definition SI : UnitSystem :=
  let cgs := CGS in {|
  c := Const (value (c cgs) / lit 100) "m s^-1";
  G := Const (value (G cgs) * POW3 (lit 1 / lit 100) / (lit 1 / lit 1000))
         "m^3 kg^-1 s^-2";
  kb := Const (value (kb cgs) * lit 1e-7) "J K^-1";
  Msun := Const (value (Msun cgs) / lit 1000) "kg";
  MeV := Const (value (MeV cgs) * lit 1e-7) "J";
  length := Const (lit 0.01) "m";
  time := Const (lit 1.0) "s";
  density := Const (lit 1000.0) "kg m^-3";
  mass := Const (lit 0.001) "kg";
  energy := Const (lit 1.0e-7) "J";
  pressure := Const (lit 0.1) "Pa";
  temperature := Const (lit 1.0) "K";
  chemical_potential := Const (lit 1.0e-7) "J"
|}.

Definition GeometricKilometer : UnitSystem :=
  let cgs := CGS in {|
  c := Const (lit 1.0) "-";
  G := Const (lit 1.0) "-";
  kb := Const (lit 1.0) "-";
  Msun := Const (value (Msun cgs) * value (G cgs) / POW2 (value (c cgs))
                 * lit 1e-5) "km";
  MeV := Const (value (MeV cgs) * value (G cgs) / POW4 (value (c cgs))
                * lit 1e-5) "km";
  length := Const (lit 1e-5) "km";
  time := Const (value (c cgs) * lit 1e-5) "km";
  density := Const (lit 1e15) "km^-3";
  mass := Const (value (G cgs) / POW2 (value (c cgs)) * lit 1e-5) "km";
  energy := Const (value (G cgs) / POW4 (value (c cgs)) * lit 1e-5) "km";
  pressure := Const (value (G cgs) / POW4 (value (c cgs)) * lit 1e10)
                "km^-2";
  temperature := Const (value (kb cgs) * value (G cgs)
                        / POW4 (value (c cgs)) * lit 1e-5) "km";
  chemical_potential := Const (value (kb cgs) / value (MeV cgs)) "MeV"
|}.

Definition GeometricSolar : UnitSystem :=
  let cgs := CGS in {|
  c := Const (lit 1.0) "-";
  G := Const (lit 1.0) "-";
  kb := Const (lit 1.0) "-";
  Msun := Const (lit 1.0) "-";
  MeV := Const (value (MeV cgs) / POW2 (value (c cgs))) "Msun";
  length := Const (POW2 (value (c cgs))
                   / (value (G cgs) * value (Msun cgs))) "Msun";
  time := Const (POW3 (value (c cgs))
                 / (value (G cgs) * value (Msun cgs))) "Msun";
  density := Const (POW3 ((value (G cgs) * value (Msun cgs))
                          / POW2 (value (c cgs)))) "Msun^-3";
  mass := Const (lit 1.0 / value (Msun cgs)) "Msun";
  energy := Const (lit 1.0 / (value (Msun cgs) * POW2 (value (c cgs))))
              "Msun";
  pressure := Const (POW3 (value (G cgs) / POW2 (value (c cgs)))
                     * POW2 (value (Msun cgs) / value (c cgs))) "Msun^-2";
  temperature := Const (value (kb cgs) / value (MeV cgs)) "MeV";
  chemical_potential := Const (value (kb cgs) / value (MeV cgs)) "MeV"
|}.

Definition Nuclear : UnitSystem :=
  let cgs := CGS in {|
  c := Const (lit 1.0) "-";
  G := Const (value (G cgs) * value (MeV cgs) / POW4 (value (c cgs))
              * lit 1e13) "fm";
  kb := Const (lit 1.0) "-";
  Msun := Const (value (Msun cgs) * POW2 (value (c cgs))
                 / value (MeV cgs)) "MeV";
  MeV := Const (lit 1.0) "MeV";
  length := Const (lit 1e13) "fm";
  time := Const (value (c cgs) * lit 1e13) "fm";
  density := Const (lit 1e-39) "fm^-3";
  mass := Const (POW2 (value (c cgs)) / value (MeV cgs)) "MeV";
  energy := Const (lit 1.0 / value (MeV cgs)) "MeV";
  pressure := Const (lit 1e-39 / value (MeV cgs)) "MeV fm^-3";
  temperature := Const (value (kb cgs) / value (MeV cgs)) "MeV";
  chemical_potential := Const (value (kb cgs) / value (MeV cgs)) "MeV"
|}.

(** The divisors that occur in the [__init__] methods above. *)
Definition init_divisors : list Qc :=
  let cgs := CGS in
  [ lit 100; lit 1 / lit 1000; lit 1000;
    POW2 (value (c cgs)); POW4 (value (c cgs));
    value (MeV cgs); value (G cgs) * value (Msun cgs);
    value (Msun cgs); value (Msun cgs) * POW2 (value (c cgs));
    value (c cgs) ].

(** The instances the module creates when it is imported. *)
Definition us_CGS : UnitSystem := CGS.
Definition us_SI : UnitSystem := SI.
Definition us_GeometricKilometer : UnitSystem := GeometricKilometer.
Definition us_GeometricSolar : UnitSystem := GeometricSolar.
Definition us_Nuclear : UnitSystem := Nuclear.

Definition unit_systems : list UnitSystem :=
  [ us_CGS; us_SI; us_GeometricKilometer; us_GeometricSolar; us_Nuclear ].

(** The heap once the module is imported: the five instances, in the
    order they are created.  (The CGS instance an [__init__] builds for
    itself is local to it and unreachable afterwards.) *)
Definition module_heap : Heap := map OUnitSystem unit_systems.

(* ================================================================== *)
(** ** Notions used to state the properties *)


(** Every object of [h] is still there, unchanged, in [h']. *)
Definition unchanged (h h' : Heap) : Prop :=
  forall l o, nth_error h l = Some o -> nth_error h' l = Some o.





(* ================================================================== *)
(** ** The attribute-style expression *)

(** [src(tar).quantity(value)], the usage the docstring of
    [ConversionProxy] gives: build the proxy, read the attribute, call
    what it returns. *)
Definition attribute_style (class_attribute : ClassAttributes)
    (src tar : PyVal) (quantity : string) (val : option PyVal) : M PyVal :=
  proxy <- __call__ src (Some tar) None None ;;
  f <- getattribute class_attribute proxy quantity ;;
  call1 class_attribute f val.

(* ================================================================== *)
(** ** code_conventions.py *)

(** The module-level names of [units.py], as addresses in
    [module_heap]. *)
Definition ref_us_CGS : PyVal := VRef 0%nat.
Definition ref_us_SI : PyVal := VRef 1%nat.
Definition ref_us_GeometricKilometer : PyVal := VRef 2%nat.
Definition ref_us_GeometricSolar : PyVal := VRef 3%nat.
Definition ref_us_Nuclear : PyVal := VRef 4%nat.

(** [src(tar, quantity, 1)] where the table goes on to compute with the
    result as a number. *)
Definition convert_one (src tar : PyVal) (quantity : string) : M Qc :=
  r <- __call__ src (Some tar) (Some quantity) (Some (VNum (lit 1))) ;;
  match r with
  | VNum x => ret x
  | _ => raise TypeError
  end.

Section CodeConventions.

(** The square root and the constant pi of the array library have no
    rational value; the table is parametric in them. *)
Variable np_sqrt : Qc -> Qc.
Variable np_pi : Qc.

(** [conv_gra]: the conversion factors from the code units of GR-Athena++
    to common physical units, evaluated entry by entry. *)
Definition conv_gra : M (list (string * Constant)) :=
  mass_g <- convert_one ref_us_GeometricSolar ref_us_CGS "mass" ;;
  rho_d <- convert_one ref_us_GeometricSolar ref_us_CGS "density" ;;
  rho_m <- convert_one ref_us_GeometricSolar ref_us_CGS "mass" ;;
  n <- convert_one ref_us_GeometricSolar ref_us_CGS "density" ;;
  t <- convert_one ref_us_GeometricSolar ref_us_CGS "time" ;;
  T <- convert_one ref_us_Nuclear ref_us_SI "temperature" ;;
  T_GK <- lift (truediv T (lit 1e9)) ;;
  u_e <- convert_one ref_us_GeometricSolar ref_us_CGS "energy" ;;
  u_l <- convert_one ref_us_GeometricSolar ref_us_CGS "length" ;;
  u_l3 <- lift (pow u_l 3%Z) ;;
  u <- lift (truediv u_e u_l3) ;;
  l <- convert_one ref_us_GeometricSolar ref_us_CGS "length" ;;
  l_m <- lift (truediv l (lit 100)) ;;
  l_km <- lift (truediv l_m (lit 1000)) ;;
  E <- convert_one ref_us_GeometricSolar ref_us_Nuclear "energy" ;;
  L_e <- convert_one ref_us_GeometricSolar ref_us_CGS "energy" ;;
  L_t <- convert_one ref_us_GeometricSolar ref_us_CGS "time" ;;
  L <- lift (truediv L_e L_t) ;;
  B_m <- convert_one ref_us_GeometricSolar ref_us_CGS "mass" ;;
  B_l <- convert_one ref_us_GeometricSolar ref_us_CGS "length" ;;
  B_ml <- lift (truediv B_m B_l) ;;
  B_t <- convert_one ref_us_GeometricSolar ref_us_CGS "time" ;;
  B <- lift (truediv (np_sqrt (lit 4 * np_pi) * np_sqrt B_ml) B_t) ;;
  ret [ ("mass [g]", Const mass_g "gra_cu -> g");
        ("rho [g cm^-3]", Const (rho_d * rho_m) "gra_cu -> g cm^-3");
        ("n [cm^-3]", Const n "gra_cu -> cm^-3");
        ("t [ms]", Const (lit 1000 * t) "gra_cu -> ms");
        ("T [MeV]", Const (lit 1) "gra_cu -> MeV");
        ("T [GK]", Const T_GK "gra_cu -> GK");
        ("u [erg cm^-3]", Const u "gra_cu -> erg cm^-3");
        ("l [km]", Const l_km "gra_cu -> km");
        ("E [MeV]", Const E "gra_cu -> MeV");
        ("L [erg s^-1]", Const L "gra_cu -> erg s^-1");
        ("B [G]",
         Const B "gra_cu -> G = cm^-1/2 g^1/2 s * (4 * pi)^1/2") ].

End CodeConventions.

(* ================================================================== *)
(** ** Further notions used to state properties *)


(** The stored values a conversion of [quantity] from [src] to [tar]
    divides by: the source's factor of that name, but the source length
    and the target time for a velocity and the source [kb] for an
    entropy. *)
Definition divisors_of (quantity : string) (src tar : UnitSystem)
  : list Qc :=
  if String.eqb quantity "velocity"
  then [ value (length src); value (time tar) ]
  else if String.eqb quantity "entropy"
  then [ value (kb src) ]
  else
    match getattr src quantity with
    | Ok a => [ value a ]
    | Raise _ => []
    end.

(** Whether [v] refers to a unit system. *)
Definition is_unit_system (h : Heap) (v : PyVal) : bool :=
  match v with
  | VRef l =>
      match nth_error h l with
      | Some (OUnitSystem _) => true
      | _ => false
      end
  | _ => false
  end.

(** An outcome that respects the heap [h] it started from: the heap is
    as it was, or it has one more object and the outcome is a reference
    to that object. *)
Definition frame (h : Heap) (out : result PyVal * Heap) : Prop :=
  snd out = h \/
  exists o,
    snd out = (h ++ [o])%list /\ fst out = Ok (VRef (List.length h)).

(* ================================================================== *)
(** ** The arithmetic of the source: binary64

    The source computes with Python floats.  Where a statement depends
    on how a product or a quotient is rounded, or on overflow, it is
    made about [Binary64], which repeats the conversion ratios and the
    five unit systems of [units.py] over the primitive binary64 floats,
    operation by operation in the order of the source.  A decimal
    literal is the nearest float, [/] raises on a zero divisor (of
    either sign), and a product that overflows is an infinity, as in
    Python.  Labels are kept, objects are not: [Binary64.__call__] is the
    call with a target, a quantity and a number. *)

Module Binary64.

Import PrimFloat.
Local Open Scope float_scope.
Local Set Warnings "-inexact-float".

Record Constant := Const { value : float; unit : string }.

(** [x / y] on floats. *)
Definition truediv (x y : float) : result float :=
  if (y =? 0)%float then Raise ZeroDivisionError else Ok (x / y).

Definition POW2 (x : float) : float := x * x.

Definition POW3 (x : float) : float := x * x * x.

Definition POW4 (x : float) : float := POW2 x * POW2 x.

Record UnitSystem := {
  c : Constant;
  G : Constant;
  kb : Constant;
  Msun : Constant;
  MeV : Constant;
  length : Constant;
  time : Constant;
  density : Constant;
  mass : Constant;
  energy : Constant;
  pressure : Constant;
  temperature : Constant;
  chemical_potential : Constant
}.

Definition conv_length (src tar : UnitSystem) : result float :=
  truediv (value (length tar)) (value (length src)).

Definition conv_time (src tar : UnitSystem) : result float :=
  truediv (value (time tar)) (value (time src)).

Definition conv_velocity (src tar : UnitSystem) : result float :=
  let? r := truediv (value (length tar)) (value (length src)) in
  truediv (r * value (time src)) (value (time tar)).

Definition conv_density (src tar : UnitSystem) : result float :=
  truediv (value (density tar)) (value (density src)).

Definition conv_mass (src tar : UnitSystem) : result float :=
  truediv (value (mass tar)) (value (mass src)).

Definition conv_energy (src tar : UnitSystem) : result float :=
  truediv (value (energy tar)) (value (energy src)).

Definition conv_entropy (src tar : UnitSystem) : result float :=
  truediv (value (kb tar)) (value (kb src)).

Definition conv_pressure (src tar : UnitSystem) : result float :=
  truediv (value (pressure tar)) (value (pressure src)).

Definition conv_temperature (src tar : UnitSystem) : result float :=
  truediv (value (temperature tar)) (value (temperature src)).

Definition conv_chemical_potential (src tar : UnitSystem) : result float :=
  truediv (value (chemical_potential tar)) (value (chemical_potential src)).

Definition quantity_map
  : list (string * (UnitSystem -> UnitSystem -> result float)) :=
  [ ("length", conv_length);
    ("time", conv_time);
    ("velocity", conv_velocity);
    ("density", conv_density);
    ("mass", conv_mass);
    ("energy", conv_energy);
    ("entropy", conv_entropy);
    ("pressure", conv_pressure);
    ("temperature", conv_temperature);
    ("chemical_potential", conv_chemical_potential) ].

(** [self(target_system, quantity, value)] for a number [value]: the
    quantity is looked up, the ratio computed, the value multiplied. *)
Definition __call__ (self target_system : UnitSystem) (quantity : string)
    (val : float) : result float :=
  match lookup quantity quantity_map with
  | None =>
      Raise (ValueError
               (String.append "Unknown quantity '"
                  (String.append quantity "'")))
  | Some conv =>
      let? factor := conv self target_system in
      Ok (val * factor)
  end.

Definition CGS : UnitSystem := {|
  c := Const 2.99792458e10 "cm s^-1";
  G := Const 6.67408e-8 "cm^3 g^-1 s^-2";
  kb := Const 1.38064852e-16 "erg K^-1";
  Msun := Const 1.98848e33 "g";
  MeV := Const 1.6021766208e-6 "erg";
  length := Const 1.0 "cm";
  time := Const 1.0 "s";
  density := Const 1.0 "g cm^-3";
  mass := Const 1.0 "g";
  energy := Const 1.0 "erg";
  pressure := Const 1.0 "erg cm^-3";
  temperature := Const 1.0 "K";
  chemical_potential := Const 1.0 "erg"
|}.

Definition SI : UnitSystem :=
  let cgs := CGS in {|
  c := Const (value (c cgs) / 100) "m s^-1";
  G := Const (value (G cgs) * POW3 (1 / 100) / (1 / 1000))
         "m^3 kg^-1 s^-2";
  kb := Const (value (kb cgs) * 1e-7) "J K^-1";
  Msun := Const (value (Msun cgs) / 1000) "kg";
  MeV := Const (value (MeV cgs) * 1e-7) "J";
  length := Const 0.01 "m";
  time := Const 1.0 "s";
  density := Const 1000.0 "kg m^-3";
  mass := Const 0.001 "kg";
  energy := Const 1.0e-7 "J";
  pressure := Const 0.1 "Pa";
  temperature := Const 1.0 "K";
  chemical_potential := Const 1.0e-7 "J"
|}.

Definition GeometricKilometer : UnitSystem :=
  let cgs := CGS in {|
  c := Const 1.0 "-";
  G := Const 1.0 "-";
  kb := Const 1.0 "-";
  Msun := Const (value (Msun cgs) * value (G cgs) / POW2 (value (c cgs))
                 * 1e-5) "km";
  MeV := Const (value (MeV cgs) * value (G cgs) / POW4 (value (c cgs))
                * 1e-5) "km";
  length := Const 1e-5 "km";
  time := Const (value (c cgs) * 1e-5) "km";
  density := Const 1e15 "km^-3";
  mass := Const (value (G cgs) / POW2 (value (c cgs)) * 1e-5) "km";
  energy := Const (value (G cgs) / POW4 (value (c cgs)) * 1e-5) "km";
  pressure := Const (value (G cgs) / POW4 (value (c cgs)) * 1e10) "km^-2";
  temperature := Const (value (kb cgs) * value (G cgs)
                        / POW4 (value (c cgs)) * 1e-5) "km";
  chemical_potential := Const (value (kb cgs) / value (MeV cgs)) "MeV"
|}.

Definition GeometricSolar : UnitSystem :=
  let cgs := CGS in {|
  c := Const 1.0 "-";
  G := Const 1.0 "-";
  kb := Const 1.0 "-";
  Msun := Const 1.0 "-";
  MeV := Const (value (MeV cgs) / POW2 (value (c cgs))) "Msun";
  length := Const (POW2 (value (c cgs))
                   / (value (G cgs) * value (Msun cgs))) "Msun";
  time := Const (POW3 (value (c cgs))
                 / (value (G cgs) * value (Msun cgs))) "Msun";
  density := Const (POW3 ((value (G cgs) * value (Msun cgs))
                          / POW2 (value (c cgs)))) "Msun^-3";
  mass := Const (1.0 / value (Msun cgs)) "Msun";
  energy := Const (1.0 / (value (Msun cgs) * POW2 (value (c cgs)))) "Msun";
  pressure := Const (POW3 (value (G cgs) / POW2 (value (c cgs)))
                     * POW2 (value (Msun cgs) / value (c cgs))) "Msun^-2";
  temperature := Const (value (kb cgs) / value (MeV cgs)) "MeV";
  chemical_potential := Const (value (kb cgs) / value (MeV cgs)) "MeV"
|}.

Definition Nuclear : UnitSystem :=
  let cgs := CGS in {|
  c := Const 1.0 "-";
  G := Const (value (G cgs) * value (MeV cgs) / POW4 (value (c cgs))
              * 1e13) "fm";
  kb := Const 1.0 "-";
  Msun := Const (value (Msun cgs) * POW2 (value (c cgs))
                 / value (MeV cgs)) "MeV";
  MeV := Const 1.0 "MeV";
  length := Const 1e13 "fm";
  time := Const (value (c cgs) * 1e13) "fm";
  density := Const 1e-39 "fm^-3";
  mass := Const (POW2 (value (c cgs)) / value (MeV cgs)) "MeV";
  energy := Const (1.0 / value (MeV cgs)) "MeV";
  pressure := Const (1e-39 / value (MeV cgs)) "MeV fm^-3";
  temperature := Const (value (kb cgs) / value (MeV cgs)) "MeV";
  chemical_potential := Const (value (kb cgs) / value (MeV cgs)) "MeV"
|}.

(** The instances the module creates when it is imported. *)
Definition us_CGS : UnitSystem := CGS.
Definition us_SI : UnitSystem := SI.
Definition us_GeometricKilometer : UnitSystem := GeometricKilometer.
Definition us_GeometricSolar : UnitSystem := GeometricSolar.
Definition us_Nuclear : UnitSystem := Nuclear.

Definition unit_systems : list UnitSystem :=
  [ us_CGS; us_SI; us_GeometricKilometer; us_GeometricSolar; us_Nuclear ].

(** *** Notions used to state properties of the rounded arithmetic *)

(** The float [k] places above, and below, [x]. *)
Fixpoint steps_up (k : nat) (x : float) : float :=
  match k with
  | O => x
  | S k => steps_up k (PrimFloat.next_up x)
  end.

Fixpoint steps_down (k : nat) (x : float) : float :=
  match k with
  | O => x
  | S k => steps_down k (PrimFloat.next_down x)
  end.

(** [y] is [x] or one of the [k] floats next to it on either side: the
    two agree up to [k] units in the last place. *)
Definition within (k : nat) (x y : float) : bool :=
  (steps_down k x <=? y)%float && (y <=? steps_up k x)%float.

(** The velocity ratio as the specification words it. *)
Definition spec_velocity_factor (source target : UnitSystem)
  : result float :=
  let? l := truediv (value (length target)) (value (length source)) in
  let? t := truediv (value (time source)) (value (time target)) in
  Ok (l * t).


(** The velocity ratio of the code and that of the specification agree
    up to one unit in the last place. *)
Definition check_velocity (A B : UnitSystem) : bool :=
  match conv_velocity A B, spec_velocity_factor A B with
  | Ok f, Ok s => within 1 s f
  | _, _ => false
  end.

(** The ratio from [A] to [C] is the product of those from [A] to [B]
    and from [B] to [C] up to two units in the last place. *)
Definition check_composition (A B C : UnitSystem) (Q : string) : bool :=
  match lookup Q quantity_map with
  | Some conv =>
      match conv A B, conv B C, conv A C with
      | Ok f, Ok g, Ok k => within 2 k (f * g)
      | _, _, _ => false
      end
  | None => false
  end.

(** The CGS speed of light and solar mass, converted to [X], are the
    [c] and [Msun] of [X] up to one unit in the last place. *)
Definition check_constants (X : UnitSystem) : bool :=
  match __call__ us_CGS X "velocity" (value (c us_CGS)),
        __call__ us_CGS X "mass" (value (Msun us_CGS)) with
  | Ok v, Ok m => within 1 (value (c X)) v && within 1 (value (Msun X)) m
  | _, _ => false
  end.

End Binary64.

(* ================================================================== *)
(** ** Basic facts *)


Lemma is_zero_true (x : Qc) : is_zero x = true -> x = 0.
Proof.
  unfold is_zero. intros H. apply Z.eqb_eq in H.
  apply Qc_is_canon. destruct x as [[n d] Hc]. simpl in *. subst n.
  reflexivity.
Qed.



Lemma truediv_zero (x y : Qc) :
  is_zero y = true -> truediv x y = Raise ZeroDivisionError.
Proof. intros H. unfold truediv. rewrite H. reflexivity. Qed.

Lemma lookup_not_in {A} (key : string) (d : list (string * A)) :
  ~ In key (map fst d) -> lookup key d = None.
Proof.
  induction d as [|[k a] d IH]; simpl; intros H.
  - reflexivity.
  - destruct (String.eqb_spec key k) as [E|E].
    + exfalso. apply H. left. symmetry. exact E.
    + apply IH. intros Hin. apply H. right. exact Hin.
Qed.

Lemma lookup_in {A} (key : string) (d : list (string * A)) :
  In key (map fst d) -> exists a, lookup key d = Some a.
Proof.
  induction d as [|[k a] d IH]; simpl; intros H.
  - contradiction.
  - destruct (String.eqb_spec key k) as [E|E].
    + exists a. reflexivity.
    + destruct H as [H|H]; [symmetry in H; contradiction | auto].
Qed.

Create HintDb heap.

Lemma unchanged_refl (h : Heap) : unchanged h h.
Proof. intros l o H. exact H. Qed.

Lemma unchanged_alloc (h : Heap) (o : Obj) : unchanged h (h ++ [o])%list.
Proof.
  intros l o' H. rewrite nth_error_app1; [exact H|].
  apply nth_error_Some. rewrite H. discriminate.
Qed.

#[local] Hint Resolve unchanged_refl unchanged_alloc : heap.


Lemma attrs_of_system (h : Heap) (a : loc) (us : UnitSystem) :
  nth_error h a = Some (OUnitSystem us) -> attrs_of (VRef a) h = (Ok us, h).
Proof.
  intros H. unfold attrs_of, bind, deref. rewrite H. reflexivity.
Qed.

Lemma isinstance_system (h : Heap) (a : loc) (us : UnitSystem) :
  nth_error h a = Some (OUnitSystem us) ->
  isinstance_UnitSystem (VRef a) h = (Ok true, h).
Proof.
  intros H. unfold isinstance_UnitSystem, bind, deref. rewrite H.
  reflexivity.
Qed.

(** The dictionary comprehension of [__call__] rebuilds the instance
    dictionary. *)
Lemma dump_is_dict (us : UnitSystem) :
  dict_comprehension us dump_names = Ok (__dict__ us).
Proof. reflexivity. Qed.

(** No division of an [__init__] has a zero divisor. *)
Lemma init_divisors_nonzero :
  forallb (fun d => negb (is_zero d)) init_divisors = true.
Proof. vm_compute. reflexivity. Qed.


(* ================================================================== *)
(** ** Constant arithmetic *)

Example constant_algebra :
  let a := Const (lit 2) "u" in
  let b := Const (lit 3) "u" in
  value (__add__ a (OConstant b)) = lit 5 /\
  value (__mul__ a (OConstant b)) = lit 6 /\
  value (__neg__ a) = lit (-2) /\
  __pow__ a (EInt 2) = Ok (Const (lit 4) "u") /\
  unit (__add__ a (OConstant b)) = unit a.
Proof.
  repeat split; apply Qc_is_canon; reflexivity.
Qed.



(* ================================================================== *)
(** ** The direct call without a target *)

(** C1, as stated, fails: the mapping returned for CGS has thirteen
    keys, not twelve. *)
Lemma dump_has_not_12_keys :
  exists d,
    __call__ (VRef 0%nat) None None None module_heap
      = (Ok (VRef 5%nat), (module_heap ++ [ODict d])%list) /\
    map fst d = dump_names /\
    List.length (map fst d) <> 12%nat.
Proof.
  exists (__dict__ us_CGS). repeat split. simpl. discriminate.
Qed.

(** C1, amended: called with no target, a unit system returns a new
    mapping from the 13 fixed names c, G, kb, Msun, MeV, length, time,
    density, mass, energy, pressure, temperature, chemical_potential to
    the base constants and quantity factors of that system (whatever the
    other two arguments are), and no object that existed before the call
    is changed. *)
Theorem call_without_target (h : Heap) (a : loc) (us : UnitSystem)
    (quantity : option string) (val : option PyVal) :
  nth_error h a = Some (OUnitSystem us) ->
  let d := __dict__ us in
  __call__ (VRef a) None quantity val h
    = (Ok (VRef (List.length h)), (h ++ [ODict d])%list) /\
  map fst d = dump_names /\
  List.length (map fst d) = 13%nat /\
  NoDup (map fst d) /\
  unchanged h (h ++ [ODict d])%list.
Proof.
  intros H d. split; [|split; [|split; [|split]]].
  - unfold __call__, bind. rewrite (attrs_of_system _ _ _ H).
    unfold lift. rewrite dump_is_dict. reflexivity.
  - reflexivity.
  - reflexivity.
  - repeat constructor; simpl; intuition discriminate.
  - auto with heap.
Qed.

Lemma call_without_target_witness :
  __call__ (VRef 3%nat) None None None module_heap
    = (Ok (VRef 5%nat),
       (module_heap ++ [ODict (__dict__ us_GeometricSolar)])%list).
Proof.
  apply (call_without_target module_heap 3%nat us_GeometricSolar None None).
  reflexivity.
Defined.

(* ================================================================== *)
(** ** Errors of the direct call *)

(** C2, as stated, fails: with a quantity name outside the closed set
    and no value, the error is the unknown-quantity one; it does not say
    that a value is required. *)
Lemma missing_value_unknown_quantity :
  ~ In "bogus" quantities /\
  __call__ (VRef 0%nat) (Some (VRef 1%nat)) (Some "bogus") None module_heap
    = (Raise (ValueError "Unknown quantity 'bogus'"), module_heap) /\
  ValueError "Unknown quantity 'bogus'"
    <> ValueError "Must provide a value to convert".
Proof.
  split; [|split].
  - simpl. intuition discriminate.
  - reflexivity.
  - discriminate.
Qed.

(** C2, amended: for every source system, every target and every
    quantity name of the closed set, the call with the target and the
    quantity given but no value fails with the invalid-argument error
    that a value must be provided; it returns nothing and changes
    nothing.  (For a name outside the closed set the unknown-quantity
    error comes first.) *)
Theorem call_without_value (h : Heap) (a : loc) (us : UnitSystem)
    (target : PyVal) (quantity : string) :
  nth_error h a = Some (OUnitSystem us) ->
  In quantity quantities ->
  __call__ (VRef a) (Some target) (Some quantity) None h
    = (Raise (ValueError "Must provide a value to convert"), h).
Proof.
  intros H Hq. unfold __call__, bind.
  rewrite (attrs_of_system _ _ _ H).
  destruct (lookup_in quantity quantity_map Hq) as [conv ->].
  reflexivity.
Qed.

Lemma call_without_value_witness :
  __call__ (VRef 1%nat) (Some (VRef 4%nat)) (Some "entropy") None module_heap
    = (Raise (ValueError "Must provide a value to convert"), module_heap).
Proof.
  apply (call_without_value module_heap 1%nat us_SI (VRef 4%nat) "entropy").
  - reflexivity.
  - simpl. tauto.
Defined.

(** The message of the unknown-quantity error. *)
Lemma unknown_quantity_raised (h : Heap) (a : loc) (us : UnitSystem)
    (target : PyVal) (quantity : string) (val : option PyVal) :
  nth_error h a = Some (OUnitSystem us) ->
  lookup quantity quantity_map = None ->
  __call__ (VRef a) (Some target) (Some quantity) val h
    = (Raise (ValueError
                (String.append "Unknown quantity '"
                   (String.append quantity "'"))), h).
Proof.
  intros H Hq. unfold __call__, bind.
  rewrite (attrs_of_system _ _ _ H), Hq. reflexivity.
Qed.

(** C8: for every pair of unit systems (A, B) and every quantity name
    outside the closed set, calling A with target B, that name and any
    value (or none) raises the unknown-quantity error; nothing is
    returned and the heap is left as it was.  The target may in fact be
    any value. *)
Theorem call_unknown_quantity (h : Heap) (a : loc) (A : UnitSystem)
    (target : PyVal) (quantity : string) (val : option PyVal) :
  nth_error h a = Some (OUnitSystem A) ->
  ~ In quantity quantities ->
  __call__ (VRef a) (Some target) (Some quantity) val h
    = (Raise (ValueError
                (String.append "Unknown quantity '"
                   (String.append quantity "'"))), h).
Proof.
  intros H Hq.
  apply (unknown_quantity_raised h a A target quantity val H).
  apply lookup_not_in. exact Hq.
Qed.

Lemma call_unknown_quantity_witness :
  __call__ (VRef 2%nat) (Some (VRef 0%nat)) (Some "bogus")
      (Some (VNum (lit 1.0))) module_heap
    = (Raise (ValueError "Unknown quantity 'bogus'"), module_heap).
Proof.
  apply (call_unknown_quantity module_heap 2%nat us_GeometricKilometer
           (VRef 0%nat) "bogus" (Some (VNum (lit 1.0)))).
  - reflexivity.
  - simpl. intuition discriminate.
Defined.

(* ================================================================== *)
(** ** Conversion ratios *)


(** Splits [In q quantities] into its ten cases. *)
Ltac each_quantity Hq :=
  unfold quantities in Hq; simpl in Hq;
  repeat (destruct Hq as [<-|Hq]); [..|contradiction].





(** What the direct call does once the two systems, the quantity and its
    ratio are known. *)
Section Conversion.

Variables (h : Heap) (a b : loc) (A B : UnitSystem).
Variables (q : string) (conv : UnitSystem -> UnitSystem -> result Qc).
Variable f : Qc.

Hypothesis Ha : nth_error h a = Some (OUnitSystem A).
Hypothesis Hb : nth_error h b = Some (OUnitSystem B).
Hypothesis Hq : lookup q quantity_map = Some conv.
Hypothesis Hf : conv A B = Ok f.

Lemma call_applies_factor (val : PyVal) :
  __call__ (VRef a) (Some (VRef b)) (Some q) (Some val) h
    = apply_factor val f h.
Proof.
  unfold __call__, bind.
  rewrite (attrs_of_system _ _ _ Ha), Hq, (attrs_of_system _ _ _ Hb).
  unfold lift. rewrite Hf. reflexivity.
Qed.

Lemma call_scalar (x : Qc) :
  __call__ (VRef a) (Some (VRef b)) (Some q) (Some (VNum x)) h
    = (Ok (VNum (x * f)), h).
Proof. rewrite call_applies_factor. reflexivity. Qed.

Lemma call_tuple (xs : list Qc) :
  __call__ (VRef a) (Some (VRef b)) (Some q) (Some (VTuple xs)) h
    = (Ok (VTuple (scaled xs f)), h).
Proof. rewrite call_applies_factor. reflexivity. Qed.

Lemma call_list (l : loc) (xs : list Qc) :
  nth_error h l = Some (OList xs) ->
  __call__ (VRef a) (Some (VRef b)) (Some q) (Some (VRef l)) h
    = (Ok (VRef (List.length h)), (h ++ [OList (scaled xs f)])%list).
Proof.
  intros Hl. rewrite call_applies_factor.
  unfold apply_factor, bind, deref. rewrite Hl. reflexivity.
Qed.

Lemma call_ndarray (l : loc) (shape : list nat) (data : list Qc) :
  nth_error h l = Some (ONdarray shape data) ->
  __call__ (VRef a) (Some (VRef b)) (Some q) (Some (VRef l)) h
    = (Ok (VRef (List.length h)),
       (h ++ [ONdarray shape (scaled data f)])%list).
Proof.
  intros Hl. rewrite call_applies_factor.
  unfold apply_factor, bind, deref. rewrite Hl. reflexivity.
Qed.

End Conversion.

Example concrete_values :
  __call__ (VRef 0%nat) (Some (VRef 1%nat)) (Some "mass")
      (Some (VNum (lit 1.0))) module_heap
    = (Ok (VNum (lit 1.0 * (lit 0.001 / lit 1.0))), module_heap) /\
  lit 1.0 * (lit 0.001 / lit 1.0) = lit 0.001 /\
  __call__ (VRef 0%nat) (Some (VRef 1%nat)) (Some "length")
      (Some (VNum (lit 1.0))) module_heap
    = (Ok (VNum (lit 1.0 * (lit 0.01 / lit 1.0))), module_heap) /\
  lit 1.0 * (lit 0.01 / lit 1.0) = lit 0.01 /\
  __call__ (VRef 0%nat) (Some (VRef 3%nat)) (Some "mass")
      (Some (VNum (lit 1.0))) module_heap
    = (Ok (VNum (lit 1.0 * (lit 1.0 / lit 1.98848e33 / lit 1.0))),
       module_heap) /\
  lit 1.0 * (lit 1.0 / lit 1.98848e33 / lit 1.0)
    = lit 1.0 / lit 1.98848e33.
Proof.
  repeat split; try (apply Qc_is_canon; vm_compute; reflexivity).
Qed.



(* ================================================================== *)
(** ** Binary64: what the rounded arithmetic keeps *)

Section Binary64Facts.

Import PrimFloat.
Local Open Scope float_scope.
Local Set Warnings "-inexact-float".

Lemma binary64_call_ratio (A B : Binary64.UnitSystem) (Q : string)
    (conv : Binary64.UnitSystem -> Binary64.UnitSystem -> result float)
    (f x : float) :
  lookup Q Binary64.quantity_map = Some conv ->
  conv A B = Ok f ->
  Binary64.__call__ A B Q x = Ok (x * f).
Proof.
  intros Hl Hf. unfold Binary64.__call__. rewrite Hl, Hf. reflexivity.
Qed.


Lemma binary64_velocity_checked :
  forallb (fun A => forallb (Binary64.check_velocity A) Binary64.unit_systems)
    Binary64.unit_systems = true.
Proof. vm_compute. reflexivity. Qed.




(** C7, as stated, fails: from GeometricKilometer to GeometricSolar the
    velocity ratio the code computes is the float above 1.0, where
    (target.length/source.length) * (source.time/target.time) is 1.0. *)
Lemma velocity_ratio_is_rounded_differently :
  Binary64.conv_velocity Binary64.us_GeometricKilometer
      Binary64.us_GeometricSolar
    = Ok 1.0000000000000002 /\
  Binary64.spec_velocity_factor Binary64.us_GeometricKilometer
      Binary64.us_GeometricSolar
    = Ok 1.0 /\
  (1.0000000000000002 =? 1.0) = false.
Proof. repeat split; vm_compute; reflexivity. Qed.

(** C7, amended: the derived-quantity factors are not stored on a unit
    system but computed from base factors by the methods the conversion
    looks up.  The entropy factor is target.kb / source.kb.  The velocity
    factor is ((target.length / source.length) * source.time) /
    target.time, evaluated from left to right: for every source and
    target it raises exactly when (target.length/source.length) *
    (source.time/target.time) does, and between any two of the five unit
    systems it is that product up to one rounding: the same float or one
    of the two next to it. *)
Theorem derived_quantity_factors_binary64
    (source target : Binary64.UnitSystem) :
  (lookup "velocity" Binary64.quantity_map = Some Binary64.conv_velocity /\
   lookup "entropy" Binary64.quantity_map = Some Binary64.conv_entropy /\
   forall us : UnitSystem,
     getattr us "velocity" = Raise AttributeError /\
     getattr us "entropy" = Raise AttributeError) /\
  Binary64.conv_entropy source target
    = Binary64.truediv (Binary64.value (Binary64.kb target))
        (Binary64.value (Binary64.kb source)) /\
  (forall e,
     Binary64.conv_velocity source target = Raise e <->
     Binary64.spec_velocity_factor source target = Raise e) /\
  (In source Binary64.unit_systems ->
   In target Binary64.unit_systems ->
   exists f s,
     Binary64.conv_velocity source target = Ok f /\
     Binary64.spec_velocity_factor source target = Ok s /\
     Binary64.within 1 s f = true).
Proof.
  split; [repeat split|]. split; [reflexivity|]. split.
  - intros e.
    unfold Binary64.conv_velocity, Binary64.spec_velocity_factor,
      Binary64.truediv, bind_result.
    destruct (Binary64.value (Binary64.length source) =? 0);
      [reflexivity|].
    destruct (Binary64.value (Binary64.time target) =? 0);
      [reflexivity|].
    split; discriminate.
  - intros Hs Ht.
    pose proof binary64_velocity_checked as H.
    rewrite forallb_forall in H. specialize (H source Hs).
    rewrite forallb_forall in H. specialize (H target Ht).
    unfold Binary64.check_velocity in H.
    destruct (Binary64.conv_velocity source target) as [f|e];
      [|discriminate H].
    destruct (Binary64.spec_velocity_factor source target) as [s|e];
      [|discriminate H].
    exists f, s. repeat split. exact H.
Qed.

Lemma derived_quantity_factors_binary64_witness :
  exists f s,
    Binary64.conv_velocity Binary64.us_GeometricKilometer
        Binary64.us_GeometricSolar = Ok f /\
    Binary64.spec_velocity_factor Binary64.us_GeometricKilometer
        Binary64.us_GeometricSolar = Ok s /\
    Binary64.within 1 s f = true.
Proof.
  apply (derived_quantity_factors_binary64 Binary64.us_GeometricKilometer
           Binary64.us_GeometricSolar);
    simpl; tauto.
Defined.

End Binary64Facts.

(* ================================================================== *)
(** ** Type preservation *)

Lemma attrs_of_cases (v : PyVal) (h : Heap) :
  (exists us, attrs_of v h = (Ok us, h)) \/
  attrs_of v h = (Raise AttributeError, h).
Proof.
  unfold attrs_of, bind, deref.
  destruct v as [x|xs|l|s q]; try (right; reflexivity).
  destruct (nth_error h l) as [[us|xs|shape data|items|s t]|];
    try (right; reflexivity).
  left. exists us. reflexivity.
Qed.





(* ================================================================== *)
(** ** Attribute-style conversion *)

(** With a target and no quantity, [__call__] returns a new proxy bound
    to the two systems. *)
Lemma call_without_quantity (h : Heap) (a b : loc) (A B : UnitSystem)
    (val : option PyVal) :
  nth_error h a = Some (OUnitSystem A) ->
  nth_error h b = Some (OUnitSystem B) ->
  __call__ (VRef a) (Some (VRef b)) None val h
    = (Ok (VRef (List.length h)),
       (h ++ [OProxy (VRef a) (VRef b)])%list).
Proof.
  intros Ha Hb. unfold __call__, ConversionProxy, bind.
  rewrite (isinstance_system _ _ _ Ha). cbn [negb].
  rewrite (isinstance_system _ _ _ Hb). reflexivity.
Qed.

(** A proxy is only ever constructed on two unit systems. *)
Lemma ConversionProxy_endpoints (h h' : Heap) (source_unit target_unit r
    : PyVal) :
  ConversionProxy source_unit target_unit h = (Ok r, h') ->
  exists a b A B,
    source_unit = VRef a /\ target_unit = VRef b /\
    nth_error h a = Some (OUnitSystem A) /\
    nth_error h b = Some (OUnitSystem B) /\
    r = VRef (List.length h) /\
    h' = (h ++ [OProxy source_unit target_unit])%list.
Proof.
  unfold ConversionProxy, isinstance_UnitSystem, bind, deref, ret, raise,
    alloc.
  destruct source_unit as [x|xs|a|s q]; simpl; try discriminate.
  destruct (nth_error h a) as [[A|xs|shape data|items|s t]|] eqn:Ha;
    simpl; try discriminate.
  destruct target_unit as [x|xs|b|s q]; simpl; try discriminate.
  destruct (nth_error h b) as [[B|xs|shape data|items|s t]|] eqn:Hb;
    simpl; try discriminate.
  intros H. inversion H. exists a, b, A, B.
  repeat split; assumption.
Qed.

Lemma getattribute_source_unit (class_attribute : ClassAttributes)
    (h : Heap) (p : loc) (s t : PyVal) :
  nth_error h p = Some (OProxy s t) ->
  getattribute class_attribute (VRef p) "source_unit" h = (Ok s, h).
Proof.
  intros Hp. unfold getattribute, bind, deref. rewrite Hp. reflexivity.
Qed.

Lemma getattribute_target_unit (class_attribute : ClassAttributes)
    (h : Heap) (p : loc) (s t : PyVal) :
  nth_error h p = Some (OProxy s t) ->
  getattribute class_attribute (VRef p) "target_unit" h = (Ok t, h).
Proof.
  intros Hp. unfold getattribute, bind, deref. rewrite Hp. reflexivity.
Qed.

(** C9, as stated, fails: on the proxy [us_CGS(us_SI)] the name
    [source_unit], which is outside the closed quantity set, is an
    attribute of the instance; reading it gives the source system and not
    a converter, and calling that with a value raises the invalid-endpoint
    error of the proxy constructor, not the unknown-quantity error.  This
    is so whatever the class and [object] define. *)
Lemma proxy_source_unit_is_not_a_converter :
  let h := (module_heap ++ [OProxy (VRef 0%nat) (VRef 1%nat)])%list in
  ~ In "source_unit" quantities /\
  __call__ (VRef 0%nat) (Some (VRef 1%nat)) None None module_heap
    = (Ok (VRef 5%nat), h) /\
  forall class_attribute : ClassAttributes,
    getattribute class_attribute (VRef 5%nat) "source_unit" h
      = (Ok (VRef 0%nat), h) /\
    call1 class_attribute (VRef 0%nat) (Some (VNum (lit 1.0))) h
      = (Raise (ValueError "target_unit must be a UnitSystem"), h).
Proof.
  split; [|repeat split].
  simpl. intuition discriminate.
Qed.

(** C9, amended: for every ConversionProxy and every attribute name
    that ordinary lookup does not find, that is every name other than
    the proxy's own attributes [source_unit] and [target_unit] and the
    attributes that the class and [object] define ([__doc__], [__init__],
    [__class__] and the like), attribute access succeeds, changes nothing
    and returns a one-argument callable; calling it with a value is the
    direct call with that name as quantity, so for a name outside the
    closed quantity set the unknown-quantity error is raised then, and
    only then. *)
Theorem proxy_attribute_access (class_attribute : ClassAttributes)
    (h : Heap) (p a b : loc) (A B : UnitSystem) (name : string) :
  nth_error h p = Some (OProxy (VRef a) (VRef b)) ->
  nth_error h a = Some (OUnitSystem A) ->
  nth_error h b = Some (OUnitSystem B) ->
  name <> "source_unit" ->
  name <> "target_unit" ->
  class_attribute name = None ->
  getattribute class_attribute (VRef p) name h
    = (Ok (VConverter (VRef p) name), h) /\
  (forall val,
     call1 class_attribute (VConverter (VRef p) name) val h
       = __call__ (VRef a) (Some (VRef b)) (Some name) val h) /\
  (~ In name quantities ->
   forall val,
     call1 class_attribute (VConverter (VRef p) name) val h
       = (Raise (ValueError
                   (String.append "Unknown quantity '"
                      (String.append name "'"))), h)).
Proof.
  intros Hp Ha Hb Hs Ht Hc.
  assert (Hcall : forall val,
             call1 class_attribute (VConverter (VRef p) name) val h
               = __call__ (VRef a) (Some (VRef b)) (Some name) val h).
  { intros val. unfold call1, converter, bind.
    rewrite (getattribute_source_unit _ _ _ _ _ Hp). cbv beta iota.
    rewrite (getattribute_target_unit _ _ _ _ _ Hp). cbv beta iota.
    rewrite (isinstance_system _ _ _ Ha). reflexivity. }
  split; [|split].
  - unfold getattribute, bind, deref. rewrite Hp.
    apply String.eqb_neq in Hs. apply String.eqb_neq in Ht.
    rewrite Hs, Ht, Hc. reflexivity.
  - exact Hcall.
  - intros Hq val. rewrite Hcall.
    apply (unknown_quantity_raised h a A (VRef b) name val Ha).
    apply lookup_not_in. exact Hq.
Qed.

Lemma proxy_attribute_access_witness :
  let h := (module_heap ++ [OProxy (VRef 0%nat) (VRef 1%nat)])%list in
  let class_attribute : ClassAttributes := fun _ => None in
  getattribute class_attribute (VRef 5%nat) "bogus" h
    = (Ok (VConverter (VRef 5%nat) "bogus"), h) /\
  (forall val,
     call1 class_attribute (VConverter (VRef 5%nat) "bogus") val h
       = __call__ (VRef 0%nat) (Some (VRef 1%nat)) (Some "bogus") val h) /\
  (~ In "bogus" quantities ->
   forall val,
     call1 class_attribute (VConverter (VRef 5%nat) "bogus") val h
       = (Raise (ValueError "Unknown quantity 'bogus'"), h)).
Proof.
  intros h class_attribute.
  apply (proxy_attribute_access class_attribute h 5%nat 0%nat 1%nat us_CGS
           us_SI "bogus").
  - reflexivity.
  - reflexivity.
  - reflexivity.
  - discriminate.
  - discriminate.
  - reflexivity.
Defined.

(* ================================================================== *)
(** ** GeometricSolar and Nuclear *)



(* ================================================================== *)
(** ** More on Constant arithmetic *)






(** X3: with a plain number [x] on the left of a Constant [c], [x + c]
    and [x * c] are the Constants [c + x] and [c * x], and [x - c] is the
    negation of [c - x]; all carry the label of [c]. *)
Theorem number_on_the_left (x : Qc) (c : Constant) :
  number_op_Constant Add x c = Ok (__add__ c (ONumber x)) /\
  number_op_Constant Mul x c = Ok (__mul__ c (ONumber x)) /\
  number_op_Constant Sub x c = Ok (__neg__ (__sub__ c (ONumber x))) /\
  (forall r op, In op [Add; Sub; Mul; TrueDiv] ->
     number_op_Constant op x c = Ok r -> unit r = unit c).
Proof.
  destruct c as [v u]. unfold number_op_Constant. simpl.
  split; [reflexivity|]. split; [reflexivity|]. split.
  - unfold __rsub__, __neg__, __sub__. simpl. do 2 f_equal. ring.
  - intros r op Hop H.
    destruct Hop as [<-|[<-|[<-|[<-|[]]]]]; simpl in H;
      try (inversion H; reflexivity).
    unfold __rtruediv__, truediv, bind_result in H. simpl in H.
    destruct (is_zero v); inversion H. reflexivity.
Qed.

Lemma number_on_the_left_witness :
  exists r,
    number_op_Constant TrueDiv (lit 6) (Const (lit 3) "u") = Ok r /\
    unit r = "u".
Proof.
  eexists. split; [reflexivity|].
  eapply (number_on_the_left (lit 6) (Const (lit 3) "u")) with (op := TrueDiv).
  - simpl. tauto.
  - reflexivity.
Defined.

(* ================================================================== *)
(** ** More on proxies and on what a call does to the heap *)

Lemma isinstance_is (h : Heap) (v : PyVal) :
  isinstance_UnitSystem v h = (Ok (is_unit_system h v), h).
Proof.
  unfold isinstance_UnitSystem, is_unit_system, bind, deref, ret.
  destruct v as [x|xs|l|s q]; reflexivity.
Qed.

Lemma is_unit_system_true (h : Heap) (v : PyVal) :
  is_unit_system h v = true ->
  exists a us, v = VRef a /\ nth_error h a = Some (OUnitSystem us).
Proof.
  unfold is_unit_system.
  destruct v as [x|xs|l|s q]; try discriminate.
  destruct (nth_error h l) as [[us|xs|shape data|items|s t]|] eqn:Hl;
    try discriminate.
  intros _. exists l, us. split; [reflexivity | exact Hl].
Qed.

Lemma attrs_of_not_system (h : Heap) (v : PyVal) :
  is_unit_system h v = false -> attrs_of v h = (Raise AttributeError, h).
Proof.
  unfold is_unit_system, attrs_of, bind, deref, raise.
  destruct v as [x|xs|l|s q]; try reflexivity.
  destruct (nth_error h l) as [[us|xs|shape data|items|s t]|];
    try reflexivity.
  discriminate.
Qed.

Lemma nth_error_new (h : Heap) (o : Obj) :
  nth_error (h ++ [o]) (List.length h) = Some o.
Proof.
  rewrite nth_error_app2 by apply Nat.le_refl.
  rewrite Nat.sub_diag. reflexivity.
Qed.

Lemma getattribute_same_heap (class_attribute : ClassAttributes)
    (h : Heap) (obj : PyVal) (name : string) :
  snd (getattribute class_attribute obj name h) = h.
Proof.
  unfold getattribute, bind, deref, ret, raise.
  destruct obj as [x|xs|l|s q]; try reflexivity.
  destruct (nth_error h l) as [[us|xs|shape data|items|s t]|];
    try reflexivity.
  destruct (String.eqb name "source_unit"); [reflexivity|].
  destruct (String.eqb name "target_unit"); [reflexivity|].
  destruct (class_attribute name); reflexivity.
Qed.

(** The three outcomes of the proxy constructor. *)
Lemma ConversionProxy_cases (h : Heap) (source_unit target_unit : PyVal) :
  ConversionProxy source_unit target_unit h =
    if negb (is_unit_system h source_unit)
    then (Raise (ValueError "source_unit must be a UnitSystem"), h)
    else if negb (is_unit_system h target_unit)
    then (Raise (ValueError "target_unit must be a UnitSystem"), h)
    else (Ok (VRef (List.length h)),
          (h ++ [OProxy source_unit target_unit])%list).
Proof.
  unfold ConversionProxy, bind.
  rewrite isinstance_is.
  destruct (is_unit_system h source_unit); [|reflexivity].
  cbn [negb]. rewrite isinstance_is.
  destruct (is_unit_system h target_unit); reflexivity.
Qed.

(** X4: the proxy constructor tests the source first and the target
    second: a source that is not a unit system is rejected whatever the
    target is, a target that is not one is rejected once the source is
    accepted, and either error leaves the heap as it was.  Only when both
    are unit systems is a proxy made: one new object, holding exactly the
    two endpoints, beside which every other object is unchanged. *)
Theorem ConversionProxy_checks_endpoints (h : Heap)
    (source_unit target_unit : PyVal) :
  (is_unit_system h source_unit = false ->
   ConversionProxy source_unit target_unit h
     = (Raise (ValueError "source_unit must be a UnitSystem"), h)) /\
  (is_unit_system h source_unit = true ->
   is_unit_system h target_unit = false ->
   ConversionProxy source_unit target_unit h
     = (Raise (ValueError "target_unit must be a UnitSystem"), h)) /\
  (is_unit_system h source_unit = true ->
   is_unit_system h target_unit = true ->
   let h' := (h ++ [OProxy source_unit target_unit])%list in
   ConversionProxy source_unit target_unit h
     = (Ok (VRef (List.length h)), h') /\
   nth_error h' (List.length h) = Some (OProxy source_unit target_unit) /\
   unchanged h h') /\
  (forall r h',
     ConversionProxy source_unit target_unit h = (Ok r, h') ->
     is_unit_system h source_unit = true /\
     is_unit_system h target_unit = true).
Proof.
  rewrite ConversionProxy_cases.
  destruct (is_unit_system h source_unit), (is_unit_system h target_unit);
    cbn [negb]; repeat split; intros; try discriminate.
  - apply nth_error_new.
  - auto with heap.
Qed.

(** X5: the proxy [A(B)] reads back as it was built: its [source_unit]
    is A and its [target_unit] is B; the value argument plays no part,
    and reading the attributes does not change the heap. *)
Theorem proxy_endpoints_read_back (class_attribute : ClassAttributes)
    (h : Heap) (a b : loc) (A B : UnitSystem) (val : option PyVal) :
  nth_error h a = Some (OUnitSystem A) ->
  nth_error h b = Some (OUnitSystem B) ->
  exists p h',
    __call__ (VRef a) (Some (VRef b)) None val h = (Ok p, h') /\
    getattribute class_attribute p "source_unit" h' = (Ok (VRef a), h') /\
    getattribute class_attribute p "target_unit" h' = (Ok (VRef b), h') /\
    unchanged h h'.
Proof.
  intros Ha Hb.
  exists (VRef (List.length h)), (h ++ [OProxy (VRef a) (VRef b)])%list.
  split; [apply (call_without_quantity h a b A B val Ha Hb)|].
  split; [apply getattribute_source_unit with (t := VRef b), nth_error_new|].
  split; [apply getattribute_target_unit with (s := VRef a), nth_error_new|].
  auto with heap.
Qed.

Lemma proxy_endpoints_read_back_witness :
  let class_attribute : ClassAttributes := fun _ => None in
  exists p h',
    __call__ (VRef 0%nat) (Some (VRef 2%nat)) None None module_heap
      = (Ok p, h') /\
    getattribute class_attribute p "source_unit" h' = (Ok (VRef 0%nat), h') /\
    getattribute class_attribute p "target_unit" h' = (Ok (VRef 2%nat), h') /\
    unchanged module_heap h'.
Proof.
  intros class_attribute.
  apply (proxy_endpoints_read_back class_attribute module_heap 0%nat 2%nat
           us_CGS us_GeometricKilometer None); reflexivity.
Defined.

(** X6: a target that is not a unit system is rejected in two different
    ways.  Without a quantity the proxy constructor raises its
    invalid-endpoint [ValueError]; with a quantity of the closed set and
    a value there is no such test, and reading the target's factor raises
    [AttributeError].  Neither changes the heap. *)
Theorem target_not_a_unit_system (h : Heap) (a : loc) (A : UnitSystem)
    (target : PyVal) (quantity : string) (val : PyVal)
    (ignored : option PyVal) :
  nth_error h a = Some (OUnitSystem A) ->
  is_unit_system h target = false ->
  In quantity quantities ->
  __call__ (VRef a) (Some target) None ignored h
    = (Raise (ValueError "target_unit must be a UnitSystem"), h) /\
  __call__ (VRef a) (Some target) (Some quantity) (Some val) h
    = (Raise AttributeError, h).
Proof.
  intros Ha Ht Hq. split.
  - unfold __call__. rewrite ConversionProxy_cases.
    unfold is_unit_system at 1. rewrite Ha. cbn [negb]. rewrite Ht.
    reflexivity.
  - unfold __call__, bind. rewrite (attrs_of_system _ _ _ Ha).
    destruct (lookup_in quantity quantity_map Hq) as [conv ->].
    rewrite (attrs_of_not_system _ _ Ht). reflexivity.
Qed.

Lemma target_not_a_unit_system_witness :
  __call__ (VRef 0%nat) (Some (VNum (lit 1.0))) None None module_heap
    = (Raise (ValueError "target_unit must be a UnitSystem"), module_heap) /\
  __call__ (VRef 0%nat) (Some (VNum (lit 1.0))) (Some "length")
      (Some (VNum (lit 2.0))) module_heap
    = (Raise AttributeError, module_heap).
Proof.
  apply (target_not_a_unit_system module_heap 0%nat us_CGS (VNum (lit 1.0))
           "length" (VNum (lit 2.0)) None).
  - reflexivity.
  - reflexivity.
  - simpl. tauto.
Defined.

Lemma frame_same (h : Heap) (r : result PyVal) : frame h (r, h).
Proof. left. reflexivity. Qed.

Lemma frame_alloc (h : Heap) (o : Obj) : frame h (alloc o h).
Proof. right. exists o. split; reflexivity. Qed.

#[local] Hint Resolve frame_same frame_alloc : heap.

Lemma ConversionProxy_frame (h : Heap) (s t : PyVal) :
  frame h (ConversionProxy s t h).
Proof.
  rewrite ConversionProxy_cases.
  destruct (is_unit_system h s); cbn [negb]; auto with heap.
  destruct (is_unit_system h t); cbn [negb]; auto with heap.
  apply (frame_alloc h (OProxy s t)).
Qed.

Lemma apply_factor_frame (h : Heap) (val : PyVal) (factor : Qc) :
  frame h (apply_factor val factor h).
Proof.
  unfold apply_factor, bind, deref, ret, raise.
  destruct val as [x|xs|l|s q]; auto with heap.
  destruct (nth_error h l) as [[us|xs|shape data|items|s t]|];
    auto with heap.
Qed.

Lemma call_frame (h : Heap) (self : PyVal) (target_system : option PyVal)
    (quantity : option string) (val : option PyVal) :
  frame h (__call__ self target_system quantity val h).
Proof.
  unfold __call__, bind.
  destruct target_system as [target|].
  - destruct quantity as [quantity|]; [|apply ConversionProxy_frame].
    destruct (attrs_of_cases self h) as [[src ->]| ->]; auto with heap.
    destruct (lookup quantity quantity_map) as [conv|];
      [|unfold raise; auto with heap].
    destruct val as [val|]; [|unfold raise; auto with heap].
    destruct (attrs_of_cases target h) as [[tar ->]| ->]; auto with heap.
    unfold lift. destruct (conv src tar) as [factor|e]; auto with heap.
    apply apply_factor_frame.
  - destruct (attrs_of_cases self h) as [[src ->]| ->]; auto with heap.
    unfold lift. rewrite dump_is_dict. auto with heap.
Qed.

Lemma call1_frame (class_attribute : ClassAttributes) (h : Heap)
    (f : PyVal) (arg : option PyVal) :
  frame h (call1 class_attribute f arg h).
Proof.
  assert (Hus : forall v t q x,
             frame h ((is_us <- isinstance_UnitSystem v ;;
                       if is_us then __call__ v t q x else raise TypeError)
                        h)).
  { intros v t q x. unfold bind. rewrite isinstance_is.
    destruct (is_unit_system h v); [apply call_frame|].
    unfold raise. auto with heap. }
  destruct f as [x|xs|l|self quantity]; try apply Hus.
  unfold call1, converter. unfold bind at 1.
  pose proof (getattribute_same_heap class_attribute h self "source_unit")
    as Hs.
  destruct (getattribute class_attribute self "source_unit" h)
    as [[s|e] h1];
    simpl in Hs; subst h1; auto with heap.
  unfold bind at 1.
  pose proof (getattribute_same_heap class_attribute h self "target_unit")
    as Ht.
  destruct (getattribute class_attribute self "target_unit" h)
    as [[t|e] h1];
    simpl in Ht; subst h1; auto with heap.
Qed.

(** X7: no call changes an object that exists.  After a direct call, and
    after a call of anything an attribute access returned, the heap is
    what it was, or it has exactly one more object and the call returned
    a reference to it; in particular a call that raises leaves the heap
    exactly as it was.  Reading an attribute of a proxy never changes the
    heap. *)
Theorem calls_respect_the_heap (class_attribute : ClassAttributes)
    (h : Heap) (self f obj : PyVal)
    (target_system arg val : option PyVal) (quantity : option string)
    (name : string) :
  let direct := __call__ self target_system quantity val h in
  let called := call1 class_attribute f arg h in
  (frame h direct /\ unchanged h (snd direct) /\
   (forall e, fst direct = Raise e -> snd direct = h)) /\
  (frame h called /\ unchanged h (snd called) /\
   (forall e, fst called = Raise e -> snd called = h)) /\
  snd (getattribute class_attribute obj name h) = h.
Proof.
  assert (Hf : forall out, frame h out ->
             frame h out /\ unchanged h (snd out) /\
             (forall e, fst out = Raise e -> snd out = h)).
  { intros out H. split; [exact H|].
    destruct H as [E|[o [E1 E2]]].
    - rewrite E. split; auto with heap.
    - rewrite E1, E2. split; auto with heap. discriminate. }
  intros direct called.
  split; [apply Hf, call_frame|].
  split; [apply Hf, call1_frame|].
  apply getattribute_same_heap.
Qed.

(* ================================================================== *)
(** ** More on conversions *)



Section Binary64Composition.

Import PrimFloat.
Local Open Scope float_scope.
Local Set Warnings "-inexact-float".

Lemma binary64_composition_checked :
  forallb (fun A =>
    forallb (fun B =>
      forallb (fun C =>
        forallb (Binary64.check_composition A B C) quantities)
        Binary64.unit_systems)
      Binary64.unit_systems)
    Binary64.unit_systems = true.
Proof. vm_compute. reflexivity. Qed.

(** The product of two ratios need not be the float of the direct
    ratio. *)
Example composition_is_rounded :
  exists f g k,
    Binary64.conv_energy Binary64.us_SI Binary64.us_GeometricSolar = Ok f /\
    Binary64.conv_energy Binary64.us_GeometricSolar Binary64.us_Nuclear
      = Ok g /\
    Binary64.conv_energy Binary64.us_SI Binary64.us_Nuclear = Ok k /\
    (f * g =? k) = false.
Proof.
  eexists. eexists. eexists.
  repeat split; vm_compute; reflexivity.
Qed.

(** X9: conversions compose up to rounding: for any three of the five
    unit systems and every quantity of the closed set, all three
    conversions of a number succeed; converting x from A to B and the
    result from B to C multiplies x by the two ratios in turn, converting
    x from A to C multiplies it by the direct ratio, and in binary64 the
    product of the two ratios is the direct ratio up to two units in the
    last place. *)
Theorem conversions_compose_binary64 (A B C : Binary64.UnitSystem)
    (Q : string) :
  In A Binary64.unit_systems ->
  In B Binary64.unit_systems ->
  In C Binary64.unit_systems ->
  In Q quantities ->
  exists conv f g k,
    lookup Q Binary64.quantity_map = Some conv /\
    conv A B = Ok f /\
    conv B C = Ok g /\
    conv A C = Ok k /\
    (forall x,
       Binary64.__call__ A B Q x = Ok (x * f) /\
       Binary64.__call__ B C Q (x * f) = Ok (x * f * g) /\
       Binary64.__call__ A C Q x = Ok (x * k)) /\
    Binary64.within 2 k (f * g) = true.
Proof.
  intros HA HB HC HQ.
  pose proof binary64_composition_checked as H.
  rewrite forallb_forall in H. specialize (H A HA).
  rewrite forallb_forall in H. specialize (H B HB).
  rewrite forallb_forall in H. specialize (H C HC).
  rewrite forallb_forall in H. specialize (H Q HQ).
  unfold Binary64.check_composition in H.
  destruct (lookup Q Binary64.quantity_map) as [conv|] eqn:Hl;
    [|discriminate H].
  destruct (conv A B) as [f|e] eqn:Hf; [|discriminate H].
  destruct (conv B C) as [g|e] eqn:Hg; [|discriminate H].
  destruct (conv A C) as [k|e] eqn:Hk; [|discriminate H].
  exists conv, f, g, k. repeat (split; [assumption || reflexivity|]).
  split; [|exact H].
  intros x. split; [|split].
  - apply (binary64_call_ratio A B Q conv f x Hl Hf).
  - apply (binary64_call_ratio B C Q conv g (x * f) Hl Hg).
  - apply (binary64_call_ratio A C Q conv k x Hl Hk).
Qed.

Lemma conversions_compose_binary64_witness :
  exists conv f g k,
    lookup "energy" Binary64.quantity_map = Some conv /\
    conv Binary64.us_SI Binary64.us_GeometricSolar = Ok f /\
    conv Binary64.us_GeometricSolar Binary64.us_Nuclear = Ok g /\
    conv Binary64.us_SI Binary64.us_Nuclear = Ok k /\
    (forall x,
       Binary64.__call__ Binary64.us_SI Binary64.us_GeometricSolar
           "energy" x = Ok (x * f) /\
       Binary64.__call__ Binary64.us_GeometricSolar Binary64.us_Nuclear
           "energy" (x * f) = Ok (x * f * g) /\
       Binary64.__call__ Binary64.us_SI Binary64.us_Nuclear "energy" x
         = Ok (x * k)) /\
    Binary64.within 2 k (f * g) = true.
Proof.
  apply (conversions_compose_binary64 Binary64.us_SI
           Binary64.us_GeometricSolar Binary64.us_Nuclear "energy");
    simpl; tauto.
Defined.

End Binary64Composition.

Lemma converter_is_direct_call (class_attribute : ClassAttributes)
    (h : Heap) (p a : loc) (A : UnitSystem)
    (target : PyVal) (name : string) (val : option PyVal) :
  nth_error h p = Some (OProxy (VRef a) target) ->
  nth_error h a = Some (OUnitSystem A) ->
  call1 class_attribute (VConverter (VRef p) name) val h
    = __call__ (VRef a) (Some target) (Some name) val h.
Proof.
  intros Hp Ha. unfold call1, converter, bind.
  rewrite (getattribute_source_unit _ _ _ _ _ Hp). cbv beta iota.
  rewrite (getattribute_target_unit _ _ _ _ _ Hp). cbv beta iota.
  rewrite (isinstance_system _ _ _ Ha). reflexivity.
Qed.

(** X10: the attribute style is the direct call: for unit systems A and
    B and any name that ordinary lookup does not find (a name other than
    [source_unit] and [target_unit] that neither the class nor [object]
    defines), [A(B).name(value)] gives what [A(B, name, value)] gives in
    the heap that holds the proxy: the same result or the same
    exception, whatever the name and the value are. *)
Theorem attribute_style_is_direct_call (class_attribute : ClassAttributes)
    (h : Heap) (a b : loc) (A B : UnitSystem) (name : string)
    (val : option PyVal) :
  nth_error h a = Some (OUnitSystem A) ->
  nth_error h b = Some (OUnitSystem B) ->
  name <> "source_unit" ->
  name <> "target_unit" ->
  class_attribute name = None ->
  attribute_style class_attribute (VRef a) (VRef b) name val h
    = __call__ (VRef a) (Some (VRef b)) (Some name) val
        (h ++ [OProxy (VRef a) (VRef b)])%list.
Proof.
  intros Ha Hb Hs Ht Hc. unfold attribute_style. unfold bind at 1.
  rewrite (call_without_quantity h a b A B None Ha Hb).
  set (h1 := (h ++ [OProxy (VRef a) (VRef b)])%list).
  assert (Hp : nth_error h1 (List.length h)
               = Some (OProxy (VRef a) (VRef b)))
    by apply nth_error_new.
  assert (Ha1 : nth_error h1 a = Some (OUnitSystem A))
    by (apply unchanged_alloc; exact Ha).
  unfold bind.
  assert (Hg : getattribute class_attribute (VRef (List.length h)) name h1
               = (Ok (VConverter (VRef (List.length h)) name), h1)).
  { unfold getattribute, bind, deref. rewrite Hp.
    apply String.eqb_neq in Hs. apply String.eqb_neq in Ht.
    rewrite Hs, Ht, Hc. reflexivity. }
  rewrite Hg.
  apply (converter_is_direct_call class_attribute h1 (List.length h) a A
           (VRef b) name val Hp Ha1).
Qed.

Lemma attribute_style_is_direct_call_witness :
  let class_attribute : ClassAttributes := fun _ => None in
  attribute_style class_attribute (VRef 0%nat) (VRef 2%nat) "length"
      (Some (VNum (lit 1e5))) module_heap
    = __call__ (VRef 0%nat) (Some (VRef 2%nat)) (Some "length")
        (Some (VNum (lit 1e5)))
        (module_heap ++ [OProxy (VRef 0%nat) (VRef 2%nat)])%list.
Proof.
  intros class_attribute.
  apply (attribute_style_is_direct_call class_attribute module_heap 0%nat
           2%nat us_CGS us_GeometricKilometer "length"
           (Some (VNum (lit 1e5))));
    try reflexivity; discriminate.
Defined.

Lemma truediv_by_one (v d : Qc) : d = 1 -> truediv v d = Ok v.
Proof.
  intros ->. unfold truediv. simpl. f_equal. field.
  apply Q_apart_0_1.
Qed.

Lemma CGS_factor_is_one (a : Constant) :
  In a [ length us_CGS; time us_CGS; density us_CGS; mass us_CGS;
         energy us_CGS; pressure us_CGS; temperature us_CGS;
         chemical_potential us_CGS ] ->
  value a = 1.
Proof.
  simpl. intros H.
  repeat (destruct H as [<-|H];
          [apply Qc_is_canon; vm_compute; reflexivity|]).
  contradiction.
Qed.

(** X11: CGS is the reference system: its eight stored factors are 1, so
    converting a number from CGS to any unit system B multiplies it by
    the factor B stores under the name of the quantity, whatever that
    factor is. *)
Theorem from_CGS_multiplies_by_stored_factor (h : Heap) (a b : loc)
    (B : UnitSystem) (Q : string) (factor : Constant) (x : Qc) :
  nth_error h a = Some (OUnitSystem us_CGS) ->
  nth_error h b = Some (OUnitSystem B) ->
  In Q quantities ->
  getattr B Q = Ok factor ->
  __call__ (VRef a) (Some (VRef b)) (Some Q) (Some (VNum x)) h
    = (Ok (VNum (x * value factor)), h).
Proof.
  intros Ha Hb HQ Hg.
  each_quantity HQ; unfold getattr in Hg; simpl in Hg;
    try discriminate Hg; inversion Hg; subst factor;
    (eapply call_scalar; [exact Ha | exact Hb | reflexivity |]);
    unfold conv_length, conv_time, conv_density, conv_mass, conv_energy,
      conv_pressure, conv_temperature, conv_chemical_potential;
    apply truediv_by_one, CGS_factor_is_one; simpl; tauto.
Qed.

Lemma from_CGS_multiplies_by_stored_factor_witness :
  __call__ (VRef 0%nat) (Some (VRef 4%nat)) (Some "pressure")
      (Some (VNum (lit 2))) module_heap
    = (Ok (VNum (lit 2 * value (pressure us_Nuclear))), module_heap).
Proof.
  apply (from_CGS_multiplies_by_stored_factor module_heap 0%nat 4%nat
           us_Nuclear "pressure" (pressure us_Nuclear) (lit 2));
    try reflexivity.
  simpl. tauto.
Defined.

Lemma call_conv_raises (h : Heap) (a b : loc) (A B : UnitSystem) (q : string)
    (conv : UnitSystem -> UnitSystem -> result Qc) (e : Exception)
    (val : PyVal) :
  nth_error h a = Some (OUnitSystem A) ->
  nth_error h b = Some (OUnitSystem B) ->
  lookup q quantity_map = Some conv ->
  conv A B = Raise e ->
  __call__ (VRef a) (Some (VRef b)) (Some q) (Some val) h = (Raise e, h).
Proof.
  intros Ha Hb Hq He. unfold __call__, bind.
  rewrite (attrs_of_system _ _ _ Ha), Hq, (attrs_of_system _ _ _ Hb).
  unfold lift. rewrite He. reflexivity.
Qed.

(** Settles one case of the theorem below once the divisor test is
    known. *)
Ltac ratio_outcome Ha Hb :=
  first
    [ eapply call_conv_raises; [exact Ha | exact Hb | reflexivity |]
    | eexists; eapply call_scalar; [exact Ha | exact Hb | reflexivity |] ];
  unfold conv_length, conv_time, conv_velocity, conv_density, conv_mass,
    conv_energy, conv_entropy, conv_pressure, conv_temperature,
    conv_chemical_potential, truediv, bind_result;
  repeat match goal with
         | E : is_zero _ = _ |- _ => rewrite E
         end;
  reflexivity.

(** X12: for any two unit systems, whatever they store, and every
    quantity of the closed set, the conversion raises
    [ZeroDivisionError] exactly when one of the values it divides by is
    zero: the source's factor of the quantity, the source's [kb] for an
    entropy, the source's length or the target's time for a velocity.
    The error is raised whatever the value to convert is and leaves the
    heap as it was; otherwise a number is converted.  A zero on the
    target side (other than its time, for a velocity) raises nothing. *)
Theorem zero_divisor_raises (h : Heap) (a b : loc) (A B : UnitSystem)
    (Q : string) :
  nth_error h a = Some (OUnitSystem A) ->
  nth_error h b = Some (OUnitSystem B) ->
  In Q quantities ->
  if existsb is_zero (divisors_of Q A B)
  then forall val,
         __call__ (VRef a) (Some (VRef b)) (Some Q) (Some val) h
           = (Raise ZeroDivisionError, h)
  else forall x, exists f,
         __call__ (VRef a) (Some (VRef b)) (Some Q) (Some (VNum x)) h
           = (Ok (VNum (x * f)), h).
Proof.
  intros Ha Hb HQ.
  each_quantity HQ;
    match goal with
    | |- context [existsb is_zero ?d] =>
        let d1 := eval unfold divisors_of, getattr in (existsb is_zero d) in
        let d2 := eval simpl in d1 in
        change (existsb is_zero d) with d2
    end;
    rewrite ?orb_false_r.
  3: { destruct (is_zero (value (length A))) eqn:El; cbn [orb].
       - intros val. ratio_outcome Ha Hb.
       - destruct (is_zero (value (time B))) eqn:Et.
         + intros val. ratio_outcome Ha Hb.
         + intros x. ratio_outcome Ha Hb. }
  all: match goal with
       | |- context [is_zero ?v] => destruct (is_zero v) eqn:E
       end;
    [intros val | intros x]; ratio_outcome Ha Hb.
Qed.

Lemma zero_divisor_raises_witness :
  let broken :=
    {| c := c us_SI; G := G us_SI; kb := kb us_SI; Msun := Msun us_SI;
       MeV := MeV us_SI; length := Const 0 "m"; time := time us_SI;
       density := density us_SI; mass := mass us_SI;
       energy := energy us_SI; pressure := pressure us_SI;
       temperature := temperature us_SI;
       chemical_potential := chemical_potential us_SI |} in
  let h := [OUnitSystem broken; OUnitSystem us_CGS] in
  (forall val,
     __call__ (VRef 0%nat) (Some (VRef 1%nat)) (Some "length") (Some val) h
       = (Raise ZeroDivisionError, h)) /\
  (forall x, exists f,
     __call__ (VRef 1%nat) (Some (VRef 0%nat)) (Some "length")
         (Some (VNum x)) h
       = (Ok (VNum (x * f)), h)).
Proof.
  intros broken h. split.
  - apply (zero_divisor_raises h 0%nat 1%nat broken us_CGS "length");
      try reflexivity.
    simpl. tauto.
  - apply (zero_divisor_raises h 1%nat 0%nat us_CGS broken "length");
      try reflexivity.
    simpl. tauto.
Defined.

(* ================================================================== *)
(** ** Consistency of the tables *)

Lemma energy_from_CGS (X : UnitSystem) :
  conv_energy us_CGS X = Ok (value (energy X)).
Proof.
  unfold conv_energy. apply truediv_by_one, CGS_factor_is_one.
  simpl. tauto.
Qed.

Lemma MeV_agrees (X : UnitSystem) :
  In X [us_CGS; us_SI; us_GeometricKilometer; us_Nuclear] ->
  value (MeV us_CGS) * value (energy X) = value (MeV X).
Proof.
  simpl.
  intros [<-|[<-|[<-|[<-|[]]]]];
    apply Qc_is_canon; vm_compute; reflexivity.
Qed.

Lemma MeV_GeometricSolar :
  let y := value (MeV us_CGS) * value (energy us_GeometricSolar) in
  y <> value (MeV us_GeometricSolar) /\
  y * value (Msun us_CGS) = value (MeV us_GeometricSolar).
Proof.
  split.
  - intros E. apply (f_equal this) in E. vm_compute in E. discriminate E.
  - apply Qc_is_canon. vm_compute. reflexivity.
Qed.

Section Binary64Constants.

Import PrimFloat.
Local Open Scope float_scope.
Local Set Warnings "-inexact-float".

Lemma binary64_constants_checked :
  forallb Binary64.check_constants Binary64.unit_systems = true.
Proof. vm_compute. reflexivity. Qed.

(** Settles, for one concrete system, whether a converted constant is
    the stored float: it is, or the system is not in the list. *)
Ltac stored_exactly :=
  first
    [ intros _; vm_compute; reflexivity
    | let HE := fresh "HE" in
      intros HE; exfalso; simpl in HE;
      repeat (destruct HE as [HE|HE];
              [apply (f_equal (fun s =>
                                 Binary64.unit (Binary64.length s))) in HE;
               vm_compute in HE; discriminate HE|]);
      exact HE ].

(** X13: the base constants agree with the quantity factors up to
    rounding: in each of the five unit systems X, the CGS speed of light
    converted as a velocity is the [c] that X stores and the CGS solar
    mass converted as a mass is the [Msun] that X stores, up to one unit
    in the last place in binary64; the speed of light is the stored float
    itself in CGS, SI and GeometricSolar, the solar mass in every system
    but Nuclear. *)
Theorem base_constants_convert_binary64 (X : Binary64.UnitSystem) :
  In X Binary64.unit_systems ->
  exists v m,
    Binary64.__call__ Binary64.us_CGS X "velocity"
        (Binary64.value (Binary64.c Binary64.us_CGS)) = Ok v /\
    Binary64.__call__ Binary64.us_CGS X "mass"
        (Binary64.value (Binary64.Msun Binary64.us_CGS)) = Ok m /\
    Binary64.within 1 (Binary64.value (Binary64.c X)) v = true /\
    Binary64.within 1 (Binary64.value (Binary64.Msun X)) m = true /\
    (In X [Binary64.us_CGS; Binary64.us_SI; Binary64.us_GeometricSolar] ->
     v = Binary64.value (Binary64.c X)) /\
    (In X [Binary64.us_CGS; Binary64.us_SI; Binary64.us_GeometricKilometer;
           Binary64.us_GeometricSolar] ->
     m = Binary64.value (Binary64.Msun X)).
Proof.
  unfold Binary64.unit_systems. simpl.
  intros [<-|[<-|[<-|[<-|[<-|[]]]]]];
    eexists; eexists;
    (split; [vm_compute; reflexivity|]);
    (split; [vm_compute; reflexivity|]);
    (split; [vm_compute; reflexivity|]);
    (split; [vm_compute; reflexivity|]);
    split; stored_exactly.
Qed.

Lemma base_constants_convert_binary64_witness :
  exists v m,
    Binary64.__call__ Binary64.us_CGS Binary64.us_GeometricSolar "velocity"
        (Binary64.value (Binary64.c Binary64.us_CGS)) = Ok v /\
    Binary64.__call__ Binary64.us_CGS Binary64.us_GeometricSolar "mass"
        (Binary64.value (Binary64.Msun Binary64.us_CGS)) = Ok m /\
    Binary64.within 1
        (Binary64.value (Binary64.c Binary64.us_GeometricSolar)) v = true /\
    Binary64.within 1
        (Binary64.value (Binary64.Msun Binary64.us_GeometricSolar)) m
      = true /\
    (In Binary64.us_GeometricSolar
        [Binary64.us_CGS; Binary64.us_SI; Binary64.us_GeometricSolar] ->
     v = Binary64.value (Binary64.c Binary64.us_GeometricSolar)) /\
    (In Binary64.us_GeometricSolar
        [Binary64.us_CGS; Binary64.us_SI; Binary64.us_GeometricKilometer;
         Binary64.us_GeometricSolar] ->
     m = Binary64.value (Binary64.Msun Binary64.us_GeometricSolar)).
Proof.
  apply (base_constants_convert_binary64 Binary64.us_GeometricSolar).
  simpl. tauto.
Defined.

End Binary64Constants.

(** X14: the energy of one MeV.  In CGS, SI, GeometricKilometer and
    Nuclear the CGS value of [MeV] converted as an energy is the [MeV]
    the system stores.  In GeometricSolar it is not: there the stored
    [MeV] is the converted energy multiplied by the CGS value of the
    solar mass. *)
Theorem MeV_converts_except_GeometricSolar (h : Heap) (a b : loc) :
  nth_error h a = Some (OUnitSystem us_CGS) ->
  (forall X,
     In X [us_CGS; us_SI; us_GeometricKilometer; us_Nuclear] ->
     nth_error h b = Some (OUnitSystem X) ->
     __call__ (VRef a) (Some (VRef b)) (Some "energy")
         (Some (VNum (value (MeV us_CGS)))) h
       = (Ok (VNum (value (MeV X))), h)) /\
  (nth_error h b = Some (OUnitSystem us_GeometricSolar) ->
   exists y,
     __call__ (VRef a) (Some (VRef b)) (Some "energy")
         (Some (VNum (value (MeV us_CGS)))) h
       = (Ok (VNum y), h) /\
     y <> value (MeV us_GeometricSolar) /\
     y * value (Msun us_CGS) = value (MeV us_GeometricSolar)).
Proof.
  intros Ha. split.
  - intros X HX Hb.
    rewrite (call_scalar h a b us_CGS X "energy" conv_energy _ Ha Hb
               eq_refl (energy_from_CGS X)).
    rewrite (MeV_agrees X HX). reflexivity.
  - intros Hb.
    exists (value (MeV us_CGS) * value (energy us_GeometricSolar)).
    split; [|apply MeV_GeometricSolar].
    apply (call_scalar h a b us_CGS us_GeometricSolar "energy" conv_energy
             _ Ha Hb eq_refl (energy_from_CGS us_GeometricSolar)).
Qed.

Lemma MeV_converts_except_GeometricSolar_witness :
  __call__ (VRef 0%nat) (Some (VRef 4%nat)) (Some "energy")
      (Some (VNum (value (MeV us_CGS)))) module_heap
    = (Ok (VNum (value (MeV us_Nuclear))), module_heap).
Proof.
  apply (MeV_converts_except_GeometricSolar module_heap 0%nat 4%nat).
  - reflexivity.
  - simpl. tauto.
  - reflexivity.
Defined.

(** X15: the table of code conventions is built without an exception
    and without changing the heap, whatever the square root and pi are;
    it has the eleven keys of the source in their order; the mass of one
    code unit in grams is the [Msun] of CGS, and its temperature in MeV
    is 1. *)
Theorem conv_gra_is_built (np_sqrt : Qc -> Qc) (np_pi : Qc) :
  exists table,
    conv_gra np_sqrt np_pi module_heap = (Ok table, module_heap) /\
    map fst table
      = [ "mass [g]"; "rho [g cm^-3]"; "n [cm^-3]"; "t [ms]"; "T [MeV]";
          "T [GK]"; "u [erg cm^-3]"; "l [km]"; "E [MeV]"; "L [erg s^-1]";
          "B [G]" ] /\
    (exists k, lookup "mass [g]" table = Some k /\
               value k = value (Msun us_CGS)) /\
    (exists k, lookup "T [MeV]" table = Some k /\ value k = 1).
Proof.
  eexists. split; [vm_compute; reflexivity|]. split; [reflexivity|].
  repeat split;
    (eexists; split;
     [reflexivity | apply Qc_is_canon; vm_compute; reflexivity]).
Qed.
